(** * node-todo-api: the HTTP route layer of [server/server.js]

    A shallow embedding of the eight Express route handlers of
    [server/server.js], of the parts of Express, lodash, the MongoDB driver
    and Mongoose that they call, and of the repository's models and
    middleware, followed by the properties of the service.

    The handlers are written in a small state-and-exception monad over a
    [World]: the document store, the log of store operations issued, and the
    Express response object of the request being served. *)

From Stdlib Require Import ZArith String Ascii List Bool Lia.
From stdpp Require Import base option gmap strings list fin_maps.

Local Open Scope string_scope.
Local Open Scope list_scope.
Local Set Warnings "-register-all".

(** ** JSON values and request bodies *)

(** JSON values as [JSON.parse] delivers them.  Numbers are kept as integers:
    the only number the handlers produce is a millisecond timestamp. *)
Inductive json : Type :=
| JNull
| JBool (b : bool)
| JNum (n : Z)
| JStr (s : string)
| JArr (items : list json)
| JObj (fields : list (string * json)).

(** A JavaScript object with string keys, as an association list: a key is
    looked up at its first entry. *)
Definition object : Type := list (string * json).

Fixpoint obj_get (o : object) (k : string) : option json :=
  match o with
  | [] => None
  | (k', v) :: o' => if String.eqb k' k then Some v else obj_get o' k
  end.

(** [o[k] = v]: overwrites the entry in place, or adds it at the end. *)
Fixpoint obj_set (o : object) (k : string) (v : json) : object :=
  match o with
  | [] => [(k, v)]
  | (k', v') :: o' =>
      if String.eqb k' k then (k', v) :: o' else (k', v') :: obj_set o' k v
  end.

(** The property [k] of a JSON value, if it is an object that has one. *)
Definition json_get (j : json) (k : string) : option json :=
  match j with
  | JObj o => obj_get o k
  | _ => None
  end.

(** [req.body] after [bodyParser.json()]: in its default strict mode the
    parser hands over objects and arrays only ([{}] when there is no body). *)
Inductive ReqBody : Type :=
| BodyObject (o : object)
| BodyArray (items : list json).

(** [req.body.k] for a key that is not an array index or [length]. *)
Definition body_get (b : ReqBody) (k : string) : option json :=
  match b with
  | BodyObject o => obj_get o k
  | BodyArray _ => None
  end.

(** lodash [_.pick(object, paths)]: the object made of the listed keys that
    are present, in the order of [paths]. *)
Fixpoint pick (b : ReqBody) (paths : list string) : object :=
  match paths with
  | [] => []
  | k :: ks =>
      match body_get b k with
      | Some v => (k, v) :: pick b ks
      | None => pick b ks
      end
  end.

(** lodash [_.isBoolean]. *)
Definition isBoolean (v : option json) : bool :=
  match v with
  | Some (JBool _) => true
  | _ => false
  end.

(** JavaScript truthiness of a property value ([None] is [undefined]). *)
Definition truthy (v : option json) : bool :=
  match v with
  | None | Some JNull => false
  | Some (JBool b) => b
  | Some (JNum n) => negb (Z.eqb n 0)
  | Some (JStr s) => negb (String.eqb s EmptyString)
  | Some (JArr _) | Some (JObj _) => true
  end.

(** ** Strings: characters classes, trimming *)

(** A character of a string stands for the code unit of its number, so the
    strings of the model are the JavaScript strings whose code units are
    below 256. *)

Fixpoint string_forallb (p : ascii -> bool) (s : string) : bool :=
  match s with
  | EmptyString => true
  | String c s' => p c && string_forallb p s'
  end.

Fixpoint string_map (f : ascii -> ascii) (s : string) : string :=
  match s with
  | EmptyString => EmptyString
  | String c s' => String (f c) (string_map f s')
  end.

Definition in_range (lo hi : nat) (c : ascii) : bool :=
  (lo <=? nat_of_ascii c)%nat && (nat_of_ascii c <=? hi)%nat.

Definition is_digit (c : ascii) : bool := in_range 48 57 c.
Definition is_lower_hex (c : ascii) : bool := is_digit c || in_range 97 102 c.
Definition is_hex (c : ascii) : bool := is_lower_hex c || in_range 65 70 c.

Definition to_lower (c : ascii) : ascii :=
  if in_range 65 90 c then ascii_of_nat (nat_of_ascii c + 32) else c.

(** The white space and line terminators that [String.prototype.trim]
    removes, among the code units below 256 that a character of a string
    stands for: tab, line feed, vertical tab, form feed, carriage return,
    space and the no-break space U+00A0. *)
Definition is_space (c : ascii) : bool :=
  in_range 9 13 c || (nat_of_ascii c =? 32)%nat || (nat_of_ascii c =? 160)%nat.

Fixpoint trim_start (s : string) : string :=
  match s with
  | EmptyString => EmptyString
  | String c s' => if is_space c then trim_start s' else s
  end.

Fixpoint trim_end (s : string) : string :=
  match s with
  | EmptyString => EmptyString
  | String c s' =>
      match trim_end s' with
      | EmptyString => if is_space c then EmptyString else String c EmptyString
      | r => String c r
      end
  end.

Definition trim (s : string) : string := trim_end (trim_start s).

(** ** Object ids *)

(** A document id is kept in the store as the string [toHexString] prints:
    24 lower-case hexadecimal digits. *)
Definition is_canonical_id (id : string) : bool :=
  (String.length id =? 24)%nat && string_forallb is_lower_hex id.

(** The driver's [ObjectId.isValid] on a string (a route parameter is always
    a string): any string of length 12, or 24 hexadecimal digits. *)
Definition ObjectId_isValid (id : string) : bool :=
  (String.length id =? 12)%nat
  || ((String.length id =? 24)%nat && string_forallb is_hex id).

Definition hex_digit (n : nat) : ascii :=
  if (n <? 10)%nat then ascii_of_nat (48 + n) else ascii_of_nat (87 + n).

Fixpoint hex_encode (s : string) : string :=
  match s with
  | EmptyString => EmptyString
  | String c s' =>
      String (hex_digit (nat_of_ascii c / 16))
        (String (hex_digit (nat_of_ascii c mod 16)) (hex_encode s'))
  end.

(** Mongoose's cast of a query's [_id] to an ObjectId, as the id's canonical
    string: 24 hexadecimal digits are read as such, 12 characters are taken
    as the 12 bytes, anything else is a cast error. *)
Definition ObjectId_cast (id : string) : option string :=
  if (String.length id =? 24)%nat && string_forallb is_hex id
  then Some (string_map to_lower id)
  else if (String.length id =? 12)%nat then Some (hex_encode id)
  else None.

(** ** Documents *)

(** A todo document without its [_id], which is its key in the collection. *)
Record Todo : Type := {
  text : string;
  completed : bool;
  completedAt : option Z
}.

(** One issued session credential of a user. *)
Record Token : Type := {
  access : string;
  token : string
}.

(** A user document without its [_id]; [password] holds the stored hash. *)
Record User : Type := {
  email : string;
  password : string;
  tokens : list Token
}.

(** The JSON of a todo document, as the responses carry it. *)
Definition Todo_toJSON (d : string * Todo) : json :=
  JObj [("_id", JStr (fst d));
        ("text", JStr (text (snd d)));
        ("completed", JBool (completed (snd d)));
        ("completedAt", match completedAt (snd d) with
                        | Some ms => JNum ms
                        | None => JNull
                        end)].

(** ** Errors, promises, the response object *)

Inductive JsError : Type :=
| ErrHeadersSent      (* Express: cannot set headers after they are sent *)
| ErrReference        (* a name that is not defined *)
| ErrStore            (* store-level failure: connection, server, ... *)
| ErrCast             (* Mongoose could not cast a value to the schema type *)
| ErrValidation       (* Mongoose schema validation *)
| ErrDuplicateKey     (* unique index violated *)
| ErrInvalidCredentials
| ErrUnauthenticated.

Definition error_name (e : JsError) : string :=
  match e with
  | ErrHeadersSent => "Error"
  | ErrReference => "ReferenceError"
  | ErrStore => "MongoError"
  | ErrCast => "CastError"
  | ErrValidation => "ValidationError"
  | ErrDuplicateKey => "MongoError"
  | ErrInvalidCredentials => "Error"
  | ErrUnauthenticated => "Error"
  end.

(** What [res.send(err)] writes for an error object.  The shape of error
    bodies is not part of the interface; only the name is kept. *)
Definition error_body (e : JsError) : json := JObj [("name", JStr (error_name e))].

(** A settled promise. *)
Inductive Promise (A : Type) : Type :=
| Fulfilled (a : A)
| Rejected (e : JsError).
Arguments Fulfilled {A} a.
Arguments Rejected {A} e.

(** What the client receives: the first response sent. *)
Record Response : Type := {
  resp_status : nat;
  resp_headers : list (string * string);
  resp_body : option json
}.

(** The operations of the Mongoose models that the service calls, with their
    arguments. *)
Inductive StoreCall : Type :=
| CallTodoSave (id : string) (txt : option json)
| CallTodoFind
| CallTodoFindById (id : string)
| CallTodoFindByIdAndRemove (id : string)
| CallTodoFindByIdAndUpdate (id : string) (upd : object)
| CallUserSave (id : string)
| CallUserFindOne (em : option json)
| CallUserFindByToken (tok : string).

(** The state a request runs in: the two collections keyed by [_id]; which
    store operations fail at store level; the methods of the models that the
    handlers have called so far, oldest first; those of them that have gone
    on to the document store as a command, oldest first; and the Express
    response object ([res.statusCode], the headers set, and the response once
    it is sent). *)
Record World : Type := {
  todos : gmap string Todo;
  users : gmap string User;
  fault : StoreCall -> bool;
  calls : list StoreCall;
  commands : list StoreCall;
  statusCode : nat;
  headers : list (string * string);
  sent : option Response
}.

Definition set_todos (m : gmap string Todo) (w : World) : World :=
  {| todos := m; users := users w; fault := fault w; calls := calls w;
     commands := commands w;
     statusCode := statusCode w; headers := headers w; sent := sent w |}.

Definition set_users (m : gmap string User) (w : World) : World :=
  {| todos := todos w; users := m; fault := fault w; calls := calls w;
     commands := commands w;
     statusCode := statusCode w; headers := headers w; sent := sent w |}.

Definition log_call (c : StoreCall) (w : World) : World :=
  {| todos := todos w; users := users w; fault := fault w;
     calls := calls w ++ [c]; commands := commands w;
     statusCode := statusCode w; headers := headers w; sent := sent w |}.

Definition log_command (c : StoreCall) (w : World) : World :=
  {| todos := todos w; users := users w; fault := fault w;
     calls := calls w; commands := commands w ++ [c];
     statusCode := statusCode w; headers := headers w; sent := sent w |}.

Definition set_statusCode (n : nat) (w : World) : World :=
  {| todos := todos w; users := users w; fault := fault w; calls := calls w;
     commands := commands w;
     statusCode := n; headers := headers w; sent := sent w |}.

Definition set_headers (h : list (string * string)) (w : World) : World :=
  {| todos := todos w; users := users w; fault := fault w; calls := calls w;
     commands := commands w;
     statusCode := statusCode w; headers := h; sent := sent w |}.

Definition set_sent (r : Response) (w : World) : World :=
  {| todos := todos w; users := users w; fault := fault w; calls := calls w;
     commands := commands w;
     statusCode := statusCode w; headers := headers w; sent := Some r |}.

(** A fresh response object for the next request: status 200, nothing sent. *)
Definition fresh_res (w : World) : World :=
  {| todos := todos w; users := users w; fault := fault w; calls := calls w;
     commands := commands w;
     statusCode := 200; headers := []; sent := None |}.

(** ** The monad of handler code: state, and JavaScript exceptions *)

Definition M (A : Type) : Type := World -> (JsError + A) * World.

Definition ret {A : Type} (a : A) : M A := fun w => (inr a, w).

Definition throw {A : Type} (e : JsError) : M A := fun w => (inl e, w).

Definition bind {A B : Type} (m : M A) (k : A -> M B) : M B :=
  fun w =>
    match m w with
    | (inl e, w') => (inl e, w')
    | (inr a, w') => k a w'
    end.

Declare Scope js_scope.
Delimit Scope js_scope with js.
Notation "x <- m ;; k" := (bind m (fun x => k))
  (at level 100, m at next level, right associativity) : js_scope.
Notation "m ;; k" := (bind m (fun _ => k))
  (at level 100, right associativity) : js_scope.
Local Open Scope js_scope.

(** [p.then(f)]: [f] runs on the value; what it throws rejects the result. *)
Definition then_ {A B : Type} (p : Promise A) (f : A -> M B) : M (Promise B) :=
  fun w =>
    match p with
    | Rejected e => (inr (Rejected e), w)
    | Fulfilled a =>
        match f a w with
        | (inl e, w') => (inr (Rejected e), w')
        | (inr b, w') => (inr (Fulfilled b), w')
        end
    end.

(** [p.then(f, h)]. *)
Definition then2 {A B : Type} (p : Promise A) (f : A -> M B) (h : JsError -> M B)
  : M (Promise B) :=
  fun w =>
    match (match p with Fulfilled a => f a w | Rejected e => h e w end) with
    | (inl e, w') => (inr (Rejected e), w')
    | (inr b, w') => (inr (Fulfilled b), w')
    end.

(** [p.then(f)] where [f] returns a promise, which the result follows. *)
Definition then_p {A B : Type} (p : Promise A) (f : A -> M (Promise B))
  : M (Promise B) :=
  fun w =>
    match p with
    | Rejected e => (inr (Rejected e), w)
    | Fulfilled a =>
        match f a w with
        | (inl e, w') => (inr (Rejected e), w')
        | (inr q, w') => (inr q, w')
        end
    end.

(** [p.catch(h)]. *)
Definition catch_ {A : Type} (p : Promise A) (h : JsError -> M A) : M (Promise A) :=
  fun w =>
    match p with
    | Fulfilled a => (inr (Fulfilled a), w)
    | Rejected e =>
        match h e w with
        | (inl e', w') => (inr (Rejected e'), w')
        | (inr a, w') => (inr (Fulfilled a), w')
        end
    end.

(** ** Express: the response object *)

(** [res.status(n)] only sets [res.statusCode]. *)
Definition res_status (n : nat) : M unit :=
  fun w => (inr tt, set_statusCode n w).

(** [res.header(k, v)] throws once the response is sent. *)
Definition res_header (k v : string) : M unit :=
  fun w =>
    match sent w with
    | Some _ => (inl ErrHeadersSent, w)
    | None => (inr tt, set_headers (headers w ++ [(k, v)]) w)
    end.

(** [res.send(body)].  The first call sends the response with the current
    status and headers.  After that, [res.send()] without a body ends an
    ended response again, which does nothing, and [res.send(obj)] goes
    through [res.json], whose attempt to set the content type throws.
    Headers that Express adds by itself are not kept. *)
Definition res_send (body : option json) : M unit :=
  fun w =>
    match sent w, body with
    | None, _ =>
        (inr tt, set_sent {| resp_status := statusCode w;
                             resp_headers := headers w;
                             resp_body := body |} w)
    | Some _, None => (inr tt, w)
    | Some _, Some _ => (inl ErrHeadersSent, w)
    end.

(** Express serves a request with the handler [h]: the handler runs on a
    fresh response object; an exception that escapes it is answered by the
    default error handler with status 500, unless a response is already
    sent. *)
Definition run (h : M unit) (w : World) : World :=
  match h (fresh_res w) with
  | (inr _, w') => w'
  | (inl _, w') =>
      match sent w' with
      | Some _ => w'
      | None =>
          set_sent {| resp_status := 500; resp_headers := [];
                      resp_body := Some (JStr "Internal Server Error") |} w'
      end
  end.

(** The response the client receives from the handler [h], if any. *)
Definition reply (h : M unit) (w : World) : option Response := sent (run h w).

(** ** Mongoose: the todo collection *)

(** [!todo] for the result of a query: a document or [null]. *)
Definition is_null {A : Type} (o : option A) : bool :=
  match o with
  | Some _ => false
  | None => true
  end.

(** A store operation.  The call of the model's method is logged.
    [prepare] is what Mongoose does before it turns to the document store,
    casting and validation: an error there rejects the operation and no
    command is sent.  Otherwise the command goes to the document store, which
    is logged: a store-level failure rejects it and changes nothing;
    otherwise [exec] settles it on what [prepare] produced. *)
Definition store_op {A B : Type} (c : StoreCall) (prepare : JsError + B)
    (exec : B -> World -> Promise A * World) : M (Promise A) :=
  fun w =>
    let w1 := log_call c w in
    match prepare with
    | inl e => (inr (Rejected e), w1)
    | inr b =>
        let w2 := log_command c w1 in
        if fault w c then (inr (Rejected ErrStore), w2)
        else let '(p, w3) := exec b w2 in (inr p, w3)
    end.

(** The result of a cast or a validation as the first stage of a store
    operation. *)
Definition prepared {B : Type} (e : JsError) (o : option B) : JsError + B :=
  match o with
  | Some b => inr b
  | None => inl e
  end.

(** Modelled from the spec: the schema of [server/models/todo.js], which is
    not among the sources.  The data model gives [text] as a required,
    non-empty, trimmed string, [completed] as a boolean that defaults to
    false and [completedAt] as a nullable timestamp that defaults to null;
    validation is by presence and type.  [Todo_validate] is the document that
    [new Todo({text})] followed by [save()] writes, if it is valid. *)
Definition Todo_validate (txt : option json) : option Todo :=
  match txt with
  | Some (JStr s) =>
      if String.eqb (trim s) EmptyString then None
      else Some {| text := trim s; completed := false; completedAt := None |}
  | _ => None
  end.

(** Modelled from the spec: the cast of an update document [{$set: upd}] to
    the schema of [server/models/todo.js].  Each field present must have the
    type the data model gives it, [text] is trimmed, paths outside the schema
    are dropped; no validator runs on an update. *)
Definition Todo_cast_update (upd : object) (t : Todo) : option Todo :=
  match
    match obj_get upd "text" with
    | None => Some (text t)
    | Some (JStr s) => Some (trim s)
    | Some _ => None
    end,
    match obj_get upd "completed" with
    | None => Some (completed t)
    | Some (JBool b) => Some b
    | Some _ => None
    end,
    match obj_get upd "completedAt" with
    | None => Some (completedAt t)
    | Some JNull => Some None
    | Some (JNum ms) => Some (Some ms)
    | Some _ => None
    end
  with
  | Some tx, Some c, Some ca =>
      Some {| text := tx; completed := c; completedAt := ca |}
  | _, _, _ => None
  end.

(** [new Todo({text}).save()], the document having been given the id [id]:
    an invalid document is rejected before the insertion is sent, and the
    store rejects an id already in use. *)
Definition Todo_save (id : string) (txt : option json) : M (Promise (string * Todo)) :=
  store_op (CallTodoSave id txt) (prepared ErrValidation (Todo_validate txt))
    (fun t w =>
       match todos w !! id with
       | Some _ => (Rejected ErrDuplicateKey, w)
       | None => (Fulfilled (id, t), set_todos (<[id := t]> (todos w)) w)
       end).

(** [Todo.find()]. *)
Definition Todo_find : M (Promise (list (string * Todo))) :=
  store_op CallTodoFind (inr tt)
    (fun _ w => (Fulfilled (map_to_list (todos w)), w)).

(** [Todo.findById(id)]: the id is cast first; [None] is JavaScript's
    [null]. *)
Definition Todo_findById (id : string) : M (Promise (option (string * Todo))) :=
  store_op (CallTodoFindById id) (prepared ErrCast (ObjectId_cast id))
    (fun k w => (Fulfilled (pair k <$> todos w !! k), w)).

(** [Todo.findByIdAndRemove(id)]: the id is cast first; removes the document
    and resolves to it. *)
Definition Todo_findByIdAndRemove (id : string)
  : M (Promise (option (string * Todo))) :=
  store_op (CallTodoFindByIdAndRemove id) (prepared ErrCast (ObjectId_cast id))
    (fun k w =>
       (Fulfilled (pair k <$> todos w !! k), set_todos (delete k (todos w)) w)).

(** Whether the update document [{$set: upd}] is cast without error, which
    does not depend on the document it is applied to. *)
Definition Todo_castable (upd : object) : bool :=
  negb (is_null (Todo_cast_update upd
                   {| text := EmptyString; completed := false;
                      completedAt := None |})).

(** [Todo.findByIdAndUpdate(id, {$set: upd}, {new: true})]: the id and the
    update document are cast first; resolves to the document after the
    update. *)
Definition Todo_findByIdAndUpdate (id : string) (upd : object)
  : M (Promise (option (string * Todo))) :=
  store_op (CallTodoFindByIdAndUpdate id upd)
    (match ObjectId_cast id with
     | None => inl ErrCast
     | Some k => if Todo_castable upd then inr k else inl ErrCast
     end)
    (fun k w =>
       match todos w !! k with
       | None => (Fulfilled None, w)
       | Some t =>
           match Todo_cast_update upd t with
           | None => (Rejected ErrCast, w)
           | Some t' =>
               (Fulfilled (Some (k, t')), set_todos (<[k := t']> (todos w)) w)
           end
       end).

(** ** The environment of a request *)

(** What a handler reads from outside: the clock ([new Date().getTime()]),
    the id that [new Todo(...)] or [new User(...)] generates for the
    document, and the salt that the password hash draws. *)
Record Env : Type := {
  now : Z;
  new_id : string;
  salt : string
}.

(** ** The todo routes of [server/server.js] *)

(** [app.post('/todos', ...)], lines 28-43. *)
Definition post_todos (env : Env) (body : ReqBody) : M unit :=
  p <- Todo_save (new_id env) (body_get body "text") ;;
  q <- then2 p
         (fun todo => res_status 200 ;; res_send (Some (Todo_toJSON todo)))
         (fun err => res_status 400 ;; res_send (Some (error_body err))) ;;
  (* the argument [err] of the last callback is not defined in its scope *)
  _ <- catch_ q (fun e => res_status 400 ;; throw ErrReference) ;;
  ret tt.

(** [app.get('/todos', ...)], lines 45-55. *)
Definition get_todos : M unit :=
  p <- Todo_find ;;
  _ <- then2 p
         (fun ts => res_send (Some (JObj [("todos", JArr (map Todo_toJSON ts))])))
         (fun err => res_status 400 ;; res_send (Some (error_body err))) ;;
  ret tt.

(** The body [{todo}] of the single-resource responses; [todo] may be
    [null]. *)
Definition todo_body (todo : option (string * Todo)) : json :=
  JObj [("todo", match todo with
                 | Some d => Todo_toJSON d
                 | None => JNull
                 end)].

(** [app.get('/todos/:id', ...)], lines 57-79.  The branch for a missing
    document does not return: the handler goes on to the second [send]. *)
Definition get_todo (id : string) : M unit :=
  if negb (ObjectId_isValid id) then
    res_status 400 ;;
    res_send (Some (JObj [("error", JStr "Todo id is not valid.")]))
  else
    p <- Todo_findById id ;;
    q <- then_ p (fun todo =>
           (if is_null todo then res_status 404 ;; res_send None
            else ret tt) ;;
           res_status 200 ;;
           res_send (Some (todo_body todo))) ;;
    _ <- catch_ q (fun e => res_status 404 ;; res_send None) ;;
    ret tt.

(** [app.delete('/todos/:id', ...)], lines 81-104. *)
Definition delete_todo (id : string) : M unit :=
  if negb (ObjectId_isValid id) then
    res_status 400 ;; res_send None
  else
    p <- Todo_findByIdAndRemove id ;;
    q <- then_ p (fun todo =>
           if is_null todo then res_status 404 ;; res_send None
           else res_status 200 ;; res_send (Some (todo_body todo))) ;;
    _ <- catch_ q (fun e => res_status 404 ;; res_send None) ;;
    ret tt.

(** The update document that lines 108-119 build from the request body. *)
Definition patch_update (env : Env) (body : ReqBody) : object :=
  let picked := pick body ["text"; "completed"] in
  if isBoolean (obj_get picked "completed") && truthy (obj_get picked "completed")
  then obj_set picked "completedAt" (JNum (now env))
  else obj_set (obj_set picked "completed" (JBool false)) "completedAt" JNull.

(** [app.patch('/todos/:id', ...)], lines 106-140.  Neither the branch for
    an invalid id nor the branch for a missing document returns. *)
Definition patch_todo (env : Env) (id : string) (body : ReqBody) : M unit :=
  (if negb (ObjectId_isValid id) then res_status 400 ;; res_send None
   else ret tt) ;;
  p <- Todo_findByIdAndUpdate id (patch_update env body) ;;
  q <- then_ p (fun todo =>
         (if is_null todo then res_status 404 ;; res_send None
          else ret tt) ;;
         res_status 200 ;;
         res_send (Some (todo_body todo))) ;;
  _ <- catch_ q (fun e => res_status 400 ;; res_send None) ;;
  ret tt.

(** ** Users: the model and the middleware *)

(** The primitives that the user model takes from its libraries, and the one
    constant of its schema that the specification leaves open. *)
Class Primitives : Type := {
  (** signs a token that encodes a user id and an access scope *)
  jwt_sign : string -> string -> string;
  (** verifies the signature of a token and decodes it *)
  jwt_verify : string -> option (string * string);
  (** the salted hash of a password: salt, then plaintext *)
  bcrypt_hash : string -> string -> string;
  (** whether a plaintext matches a stored hash *)
  bcrypt_compare : string -> string -> bool;
  (** the basic email pattern *)
  isEmail : string -> bool;
  (** the minimum length of a password *)
  min_password_length : nat
}.

(** A user document in memory: the object that [new User(body)] builds or a
    query loads, which [generateAuthToken] then mutates.  [u_password] is the
    plaintext of a new document and the stored hash of a loaded one. *)
Record UserDoc : Type := {
  u_id : string;
  u_email : option json;
  u_password : option json;
  u_tokens : list Token;
  u_isNew : bool
}.

(** [new User(body)] for the picked [body], with the generated id. *)
Definition User_new (env : Env) (body : object) : UserDoc :=
  {| u_id := new_id env;
     u_email := obj_get body "email";
     u_password := obj_get body "password";
     u_tokens := [];
     u_isNew := true |}.

(** A stored user as the document a query loads. *)
Definition User_load (d : string * User) : UserDoc :=
  {| u_id := fst d;
     u_email := Some (JStr (email (snd d)));
     u_password := Some (JStr (password (snd d)));
     u_tokens := tokens (snd d);
     u_isNew := false |}.

(** Modelled from the spec: the JSON of a user document, defined in
    [server/models/user.js], which is not among the sources.  The body of a
    user response is the user record with the password omitted, and the
    issued token is not in the body: the id and the email are what is left
    of the record. *)
Definition User_toJSON (u : UserDoc) : json :=
  JObj (("_id", JStr (u_id u))
        :: match u_email u with
           | Some v => [("email", v)]
           | None => []
           end).

(** The first stored user that satisfies [p], in the order of the ids. *)
Definition users_find (p : User -> bool) (m : gmap string User)
  : option (string * User) :=
  List.find (fun d => p (snd d)) (map_to_list m).

Section UserModel.
Context {prim : Primitives}.

(** Modelled from the spec: the validation of a new user by the schema of
    [server/models/user.js], which is not among the sources: the email is a
    string that matches the email pattern, the password a string of the
    minimum length.  The result is the pair of the two strings. *)
Definition User_validate (u : UserDoc) : option (string * string) :=
  match u_email u, u_password u with
  | Some (JStr em), Some (JStr pw) =>
      if isEmail em && (min_password_length <=? String.length pw)%nat
      then Some (em, pw) else None
  | _, _ => None
  end.

(** Modelled from the spec: [user.save()] of [server/models/user.js], which
    is not among the sources.  A new document is validated, its password is
    replaced by the salted hash, and it is inserted unless the email (or the
    id) is already registered.  A loaded document, whose password is not
    modified, has its token list written back. *)
Definition User_save (env : Env) (u : UserDoc) : M (Promise unit) :=
  store_op (CallUserSave (u_id u))
    (if u_isNew u then prepared ErrValidation (Some <$> User_validate u)
     else inr None)
    (fun valid w =>
       match valid with
       | Some (em, pw) =>
           if is_null (users w !! u_id u)
              && is_null (users_find (fun v => String.eqb (email v) em) (users w))
           then (Fulfilled tt,
                 set_users (<[u_id u := {| email := em;
                                           password := bcrypt_hash (salt env) pw;
                                           tokens := u_tokens u |}]> (users w)) w)
           else (Rejected ErrDuplicateKey, w)
       | None =>
           (Fulfilled tt,
            set_users (alter (fun v => {| email := email v;
                                          password := password v;
                                          tokens := u_tokens u |})
                             (u_id u) (users w)) w)
       end).

(** The document after [user.tokens.push({access, token})]. *)
Definition push_token (u : UserDoc) (t : Token) : UserDoc :=
  {| u_id := u_id u; u_email := u_email u; u_password := u_password u;
     u_tokens := u_tokens u ++ [t]; u_isNew := u_isNew u |}.

(** Modelled from the spec: [user.generateAuthToken()] of
    [server/models/user.js], which is not among the sources: issues a token
    that encodes the user id and the access scope [auth], appends it to the
    user's token list, saves the user, and resolves to the token. *)
Definition User_generateAuthToken (env : Env) (u : UserDoc) : M (Promise string) :=
  let tok := jwt_sign (u_id u) "auth" in
  p <- User_save env (push_token u {| access := "auth"; token := tok |}) ;;
  then_ p (fun _ => ret tok).

(** Modelled from the spec: [User.findByCredentials(email, password)] of
    [server/models/user.js], which is not among the sources: looks the user
    up by email, the case of which is normalised, and fails with
    InvalidCredentials if there is none or the password does not match the
    stored hash exactly. *)
Definition User_findByCredentials (em pw : option json) : M (Promise UserDoc) :=
  p <- store_op (CallUserFindOne em) (inr tt) (fun _ w =>
         (Fulfilled
            match em with
            | Some (JStr e) =>
                users_find (fun v => String.eqb (string_map to_lower (email v))
                                                (string_map to_lower e)) (users w)
            | _ => None
            end, w)) ;;
  then_ p (fun found =>
    match found, pw with
    | Some d, Some (JStr plain) =>
        if bcrypt_compare plain (password (snd d)) then ret (User_load d)
        else throw ErrInvalidCredentials
    | _, _ => throw ErrInvalidCredentials
    end).

Definition has_token (tok : string) (u : User) : bool :=
  existsb (fun t => String.eqb (token t) tok && String.eqb (access t) "auth")
          (tokens u).

(** Modelled from the spec: [User.findByToken(token)] of
    [server/models/user.js], which is not among the sources: the signature
    is verified before the embedded id is trusted, and the decoded id is
    cross-checked against the stored token list; a token that is absent,
    malformed or in no user's list fails with Unauthenticated. *)
Definition User_findByToken (x_auth : option string) : M (Promise UserDoc) :=
  match x_auth with
  | None => ret (Rejected ErrUnauthenticated)
  | Some tok =>
      match jwt_verify tok with
      | None => ret (Rejected ErrUnauthenticated)
      | Some (id, _) =>
          p <- store_op (CallUserFindByToken tok) (inr tt) (fun _ w =>
                 (Fulfilled match users w !! id with
                            | Some u => if has_token tok u then Some (id, u) else None
                            | None => None
                            end, w)) ;;
          then_ p (fun found =>
            match found with
            | Some d => ret (User_load d)
            | None => throw ErrUnauthenticated
            end)
      end
  end.

(** Modelled from the spec: the middleware of
    [server/middlewares/authenticate.js], which is not among the sources:
    takes the token from the [x-auth] header and calls [findByToken]; on
    success it attaches the user to the request and proceeds to the wrapped
    handler [next]; on any failure it answers 401 with an empty body. *)
Definition authenticate (x_auth : option string) (next : UserDoc -> M unit) : M unit :=
  p <- User_findByToken x_auth ;;
  q <- then_ p (fun user => next user) ;;
  _ <- catch_ q (fun e => res_status 401 ;; res_send None) ;;
  ret tt.

(** ** The user routes of [server/server.js] *)

(** [app.post('/users', ...)], lines 143-158. *)
Definition post_users (env : Env) (body : ReqBody) : M unit :=
  let user := User_new env (pick body ["email"; "password"]) in
  p <- User_generateAuthToken env user ;;
  q <- then_ p (fun tok =>
         if String.eqb tok EmptyString then res_status 400 ;; res_send None
         else
           res_header "x-auth" tok ;;
           res_status 200 ;;
           res_send (Some (User_toJSON user))) ;;
  _ <- catch_ q (fun e => res_status 400 ;; res_send (Some (error_body e))) ;;
  ret tt.

(** The handler of [app.get('/users/me', authenticate, ...)], lines 161-163. *)
Definition users_me (user : UserDoc) : M unit :=
  res_status 200 ;; res_send (Some (User_toJSON user)).

(** [app.post('/users/login', ...)], lines 165-178. *)
Definition post_users_login (env : Env) (body : ReqBody) : M unit :=
  let picked := pick body ["email"; "password"] in
  p <- User_findByCredentials (obj_get picked "email") (obj_get picked "password") ;;
  q <- then_p p (fun user =>
         t <- User_generateAuthToken env user ;;
         then_ t (fun tok =>
           res_header "x-auth" tok ;;
           res_send (Some (User_toJSON user)))) ;;
  _ <- catch_ q (fun e => res_status 400 ;; res_send None) ;;
  ret tt.

(** ** The application *)

Inductive Request : Type :=
| PostTodos (body : ReqBody)
| GetTodos
| GetTodo (id : string)
| DeleteTodo (id : string)
| PatchTodo (id : string) (body : ReqBody)
| PostUsers (body : ReqBody)
| GetUsersMe (x_auth : option string)
| PostUsersLogin (body : ReqBody).

(** The routes that [server/server.js] registers on [app]. *)
Definition route (env : Env) (req : Request) : M unit :=
  match req with
  | PostTodos body => post_todos env body
  | GetTodos => get_todos
  | GetTodo id => get_todo id
  | DeleteTodo id => delete_todo id
  | PatchTodo id body => patch_todo env id body
  | PostUsers body => post_users env body
  | GetUsersMe x_auth => authenticate x_auth users_me
  | PostUsersLogin body => post_users_login env body
  end.

(** The application serves a request. *)
Definition serve (env : Env) (req : Request) (w : World) : World :=
  run (route env req) w.

(** The response the client receives, if any. *)
Definition response (env : Env) (req : Request) (w : World) : option Response :=
  sent (serve env req w).

End UserModel.

(** ** The shape of a user response *)

(** The response that carries the user [id] with email [em] in its body and
    the token [tok] in its [x-auth] header. *)
Definition user_reply (id em tok : string) : Response :=
  {| resp_status := 200;
     resp_headers := [("x-auth", tok)];
     resp_body := Some (JObj [("_id", JStr id); ("email", JStr em)]) |}.

(** The value of the response header [k], if the response has it. *)
Fixpoint header_get (hs : list (string * string)) (k : string) : option string :=
  match hs with
  | [] => None
  | (k', v) :: hs' => if String.eqb k' k then Some v else header_get hs' k
  end.

(** ** What a request does to the store, for the status theorem *)

Section Issued.
Context {prim : Primitives}.

(** The store operations that serving [req] calls. *)
Definition issued (env : Env) (req : Request) (w : World) : list StoreCall :=
  drop (length (calls w)) (calls (serve env req w)).

(** Whether the store is failing for one of them. *)
Definition store_failed (env : Env) (req : Request) (w : World) : bool :=
  existsb (fault w) (issued env req w).

(** The status that each route answers a store-level failure with. *)
Definition store_failure_status (req : Request) : nat :=
  match req with
  | GetTodo _ | DeleteTodo _ => 404
  | GetUsersMe _ => 401
  | PostTodos _ | GetTodos | PatchTodo _ _ | PostUsers _ | PostUsersLogin _ => 400
  end.

End Issued.

(** ** A concrete instance of the primitives, and concrete stores *)

(** Stand-ins for the library primitives, to run the model on examples: a
    token is the id, a dot and the scope; a hash is the salt, a colon and the
    plaintext; an email holds an at sign. *)
Definition demo_verify (tok : string) : option (string * string) :=
  if (25 <=? String.length tok)%nat
     && String.eqb (String.substring 24 1 tok) "."
  then Some (String.substring 0 24 tok,
             String.substring 25 (String.length tok - 25) tok)
  else None.

Definition demo_compare (plain hash : string) : bool :=
  String.eqb (String.substring 3 (String.length hash - 3) hash) plain.

Definition demo_isEmail (s : string) : bool :=
  negb (string_forallb (fun c => negb (Ascii.eqb c "@"%char)) s).

Definition demo_primitives : Primitives :=
  {| jwt_sign := fun id acc => id +:+ "." +:+ acc;
     jwt_verify := demo_verify;
     bcrypt_hash := fun slt plain => slt +:+ ":" +:+ plain;
     bcrypt_compare := demo_compare;
     isEmail := demo_isEmail;
     min_password_length := 6 |}.

Definition id1 : string := "5a1f00000000000000000001".
Definition id2 : string := "5a1f00000000000000000002".
Definition id3 : string := "5a1f00000000000000000003".

Definition demo_env : Env := {| now := 1500000000000%Z; new_id := id3; salt := "s1" |}.

(** A store with two todos and one user, all operations succeeding. *)
Definition demo_world : World :=
  {| todos := <[id1 := {| text := "First test todo"; completed := false;
                          completedAt := None |}]>
              (<[id2 := {| text := "Second test todo"; completed := true;
                           completedAt := Some 333%Z |}]> ∅);
     users := <[id1 := {| email := "andrew@example.com";
                          password := "s0:userOnePass";
                          tokens := [{| access := "auth";
                                        token := id1 +:+ ".auth" |}] |}]> ∅;
     fault := fun _ => false;
     calls := [];
     commands := [];
     statusCode := 200;
     headers := [];
     sent := None |}.

(** The same store when every store operation fails. *)
Definition down_world : World :=
  {| todos := todos demo_world; users := users demo_world;
     fault := fun _ => true;
     calls := []; commands := [];
     statusCode := 200; headers := []; sent := None |}.

(** ** Which collection a route writes *)

(** The routes that write the todo collection. *)
Definition writes_todos (req : Request) : bool :=
  match req with
  | PostTodos _ | DeleteTodo _ | PatchTodo _ _ => true
  | GetTodos | GetTodo _ | PostUsers _ | GetUsersMe _ | PostUsersLogin _ => false
  end.

(** The routes that write the user collection. *)
Definition writes_users (req : Request) : bool :=
  match req with
  | PostUsers _ | PostUsersLogin _ => true
  | PostTodos _ | GetTodos | GetTodo _ | DeleteTodo _ | PatchTodo _ _
  | GetUsersMe _ => false
  end.

(** The most store operations that a route calls for one request. *)
Definition max_calls (req : Request) : nat :=
  match req with
  | PostUsersLogin _ => 2
  | _ => 1
  end.

(** A todo whose [completedAt] is set exactly when it is [completed]. *)
Definition todo_consistent (t : Todo) : Prop :=
  completed t = true <-> completedAt t <> None.

(** ** The ids that the tests of the 404 branches build *)

(** [\w] of a JavaScript regular expression. *)
Definition is_word (c : ascii) : bool :=
  is_digit c || in_range 65 90 c || in_range 97 122 c
  || (nat_of_ascii c =? 95)%nat.

(** [s.replace(/\w/, c)]: the first word character becomes [c]. *)
Fixpoint replace_first_word (s : string) (c : ascii) : string :=
  match s with
  | EmptyString => EmptyString
  | String a s' =>
      if is_word a then String c s' else String a (replace_first_word s' c)
  end.

(** [s.substr(0, s.length - 1)]. *)
Fixpoint drop_last (s : string) : string :=
  match s with
  | EmptyString => EmptyString
  | String a EmptyString => EmptyString
  | String a s' => String a (drop_last s')
  end.

(** The id of the request in the test "should return 404 if todo not found"
    of GET /todos/:id, built from the hexadecimal id [hex] of a seeded todo. *)
Definition get_404_test_id (hex : string) : string :=
  replace_first_word hex "8"%char.

(** The id of the request in the test "should return 404 if not find" of
    DELETE /todos/:id: the last character of the url becomes [0]. *)
Definition delete_404_test_id (hex : string) : string :=
  drop_last hex +:+ "0".

(** The first todo of [demo_world]. *)
Definition todo1 : Todo :=
  {| text := "First test todo"; completed := false; completedAt := None |}.

(** * Properties *)

(** Unfolds one handler down to the state transformer it denotes. *)
Ltac js_unfold :=
  unfold reply, run, bind, then_, then2, then_p, catch_, ret, throw,
    res_status, res_header, res_send, store_op, prepared, fresh_res in *;
  cbn [sent statusCode headers todos users fault calls commands
       set_sent set_statusCode set_headers set_todos set_users log_call
       log_command fst snd is_null negb] in *.

(** One case distinction on what the store, the schema or a primitive
    answers. *)
Ltac status_case :=
  match goal with
  | |- context [fault ?w ?c] => destruct (fault w c) eqn:?
  | |- context [ObjectId_isValid ?i] => destruct (ObjectId_isValid i) eqn:?
  | |- context [ObjectId_cast ?i] => destruct (ObjectId_cast i) eqn:?
  | |- context [Todo_validate ?t] => destruct (Todo_validate t) eqn:?
  | |- context [Todo_castable ?u] => destruct (Todo_castable u) eqn:?
  | |- context [Todo_cast_update ?u ?t] => destruct (Todo_cast_update u t) eqn:?
  | |- context [User_validate ?u] => destruct (User_validate u) as [[? ?]|] eqn:?
  | |- context [jwt_verify ?t] => destruct (jwt_verify t) as [[? ?]|] eqn:?
  | |- context [bcrypt_compare ?a ?b] => destruct (bcrypt_compare a b) eqn:?
  | |- context [has_token ?a ?b] => destruct (has_token a b) eqn:?
  | |- context [String.eqb ?a EmptyString] => destruct (String.eqb a EmptyString) eqn:?
  | |- context [users_find ?p ?m] => destruct (users_find p m) as [[? ?]|] eqn:?
  | |- context [@lookup _ _ (gmap string ?V) _ ?k ?m] =>
      destruct (@lookup _ _ (gmap string V) _ k m) eqn:?
  | |- context [match ?x with Some _ => _ | None => _ end] => destruct x eqn:?
  | |- context [match ?x with JNull => _ | _ => _ end] => destruct x eqn:?
  end; cbn.

(** ** Object ids *)

Lemma isValid_cast (id : string) :
  ObjectId_isValid id = true <-> is_Some (ObjectId_cast id).
Proof.
  unfold ObjectId_isValid, ObjectId_cast.
  destruct ((String.length id =? 24)%nat && string_forallb is_hex id);
    destruct (String.length id =? 12)%nat; cbn;
    split; intros H; try done; try (by eexists); by destruct H.
Qed.

(** ** GET /todos/:id *)

(** When the id is cast to a key that no document has, the answer is 404
    with an empty body, whether or not the store operation fails. *)
Lemma get_todo_missing (w : World) (id k : string) :
  ObjectId_cast id = Some k ->
  todos w !! k = None ->
  reply (get_todo id) w
    = Some {| resp_status := 404; resp_headers := []; resp_body := None |}
  /\ todos (run (get_todo id) w) = todos w.
Proof.
  intros Hk Hmiss.
  assert (Hv : ObjectId_isValid id = true) by (apply isValid_cast; eauto).
  unfold get_todo, Todo_findById. rewrite Hv. js_unfold. rewrite Hk.
  destruct (fault w (CallTodoFindById id)); cbn; [done|].
  rewrite Hmiss. cbn. done.
Qed.

(** C1. For every well-formed todo id that matches no stored document, GET
    /todos/:id answers 404 with an empty body, so without todo data, and
    leaves the collection as it was. *)
Theorem get_todo_not_found (w : World) (id : string) :
  ObjectId_isValid id = true ->
  (forall k, ObjectId_cast id = Some k -> todos w !! k = None) ->
  reply (get_todo id) w
    = Some {| resp_status := 404; resp_headers := []; resp_body := None |}
  /\ todos (run (get_todo id) w) = todos w.
Proof.
  intros Hvalid Hmiss.
  apply isValid_cast in Hvalid as [k Hk].
  apply (get_todo_missing w id k Hk). by apply Hmiss.
Qed.

Lemma get_todo_not_found_witness :
  ObjectId_isValid id3 = true
  /\ reply (get_todo id3) demo_world
     = Some {| resp_status := 404; resp_headers := []; resp_body := None |}.
Proof.
  split; [reflexivity|].
  apply (get_todo_not_found demo_world id3).
  - reflexivity.
  - intros k Hk. vm_compute in Hk. injection Hk as <-. vm_compute. reflexivity.
Defined.

(** ** Invalid ids *)

Lemma invalid_cast (id : string) :
  ObjectId_isValid id = false -> ObjectId_cast id = None.
Proof.
  intros H. destruct (ObjectId_cast id) eqn:E; [|done].
  assert (ObjectId_isValid id = true) by (apply isValid_cast; eauto).
  congruence.
Qed.

(** GET /todos/:id returns at the check of the id: no store operation is
    called. *)
Lemma get_todo_invalid_id (w : World) (id : string) :
  ObjectId_isValid id = false ->
  calls (run (get_todo id) w) = calls w
  /\ todos (run (get_todo id) w) = todos w
  /\ resp_status <$> reply (get_todo id) w = Some 400.
Proof. intros H. unfold get_todo. rewrite H. js_unfold. done. Qed.

(** DELETE /todos/:id returns at the check of the id as well. *)
Lemma delete_todo_invalid_id (w : World) (id : string) :
  ObjectId_isValid id = false ->
  calls (run (delete_todo id) w) = calls w
  /\ todos (run (delete_todo id) w) = todos w
  /\ reply (delete_todo id) w
     = Some {| resp_status := 400; resp_headers := []; resp_body := None |}.
Proof. intros H. unfold delete_todo. rewrite H. js_unfold. done. Qed.

(** C2. PATCH /todos/:id with an id that is not well formed is answered
    with 400 and an empty body, and the document store is not accessed: no
    command goes to it, whether or not it would fail, and both collections
    are as they were.  The handler does not return at the check of the id;
    the update that it goes on to call is rejected at the cast of the id,
    before any command is sent. *)
Theorem patch_todo_invalid_id (env : Env) (w : World) (id : string) (body : ReqBody) :
  ObjectId_isValid id = false ->
  reply (patch_todo env id body) w
    = Some {| resp_status := 400; resp_headers := []; resp_body := None |}
  /\ commands (run (patch_todo env id body) w) = commands w
  /\ todos (run (patch_todo env id body) w) = todos w
  /\ users (run (patch_todo env id body) w) = users w.
Proof.
  intros H. pose proof (invalid_cast id H) as Hc.
  unfold patch_todo, Todo_findByIdAndUpdate. rewrite H. js_unfold.
  rewrite Hc. cbn. done.
Qed.

Lemma patch_todo_invalid_id_witness :
  ObjectId_isValid "123" = false
  /\ reply (patch_todo demo_env "123" (BodyObject [])) down_world
     = Some {| resp_status := 400; resp_headers := []; resp_body := None |}
  /\ commands (run (patch_todo demo_env "123" (BodyObject [])) down_world)
     = commands down_world.
Proof.
  split; [reflexivity|].
  destruct (patch_todo_invalid_id demo_env down_world "123" (BodyObject []))
    as (Hr & Hc & _); [reflexivity|].
  split; [exact Hr | exact Hc].
Defined.

(** The method of the model is called all the same, and is the one
    operation of the request. *)
Lemma patch_todo_invalid_id_call
    (env : Env) (w : World) (id : string) (body : ReqBody) :
  ObjectId_isValid id = false ->
  calls (run (patch_todo env id body) w)
  = calls w ++ [CallTodoFindByIdAndUpdate id (patch_update env body)].
Proof.
  intros H. pose proof (invalid_cast id H) as Hc.
  unfold patch_todo, Todo_findByIdAndUpdate. rewrite H. js_unfold.
  rewrite Hc. cbn. done.
Qed.

(** ** Status codes *)

Section Status.
Context {prim : Primitives}.

Ltac status_done :=
  rewrite <- ?app_assoc, ?drop_app_length, ?drop_all; cbn in *;
  eexists; split; [reflexivity|]; cbn; split; [tauto|];
  let Hf := fresh "Hf" in
  intros Hf; try reflexivity; exfalso;
  repeat (apply orb_prop in Hf as [Hf|Hf]); congruence.

(** C3 (as amended). Every request that a route handler serves is answered,
    with status 200, 400, 401 or 404, hence never with a 5xx status; and when
    a store operation of the request fails at store level, the status is 404
    on GET /todos/:id and DELETE /todos/:id, 401 on GET /users/me, and 400
    on the other routes. *)
Theorem handlers_status (env : Env) (req : Request) (w : World) :
  exists r, response env req w = Some r
    /\ In (resp_status r) [200; 400; 401; 404]
    /\ (store_failed env req w = true -> resp_status r = store_failure_status req).
Proof.
  unfold store_failed, issued, response, serve.
  destruct req; cbn [route store_failure_status].
  - unfold post_todos, Todo_save. js_unfold. repeat status_case; status_done.
  - unfold get_todos, Todo_find. js_unfold. repeat status_case; status_done.
  - unfold get_todo, Todo_findById. js_unfold. repeat status_case; status_done.
  - unfold delete_todo, Todo_findByIdAndRemove. js_unfold.
    repeat status_case; status_done.
  - unfold patch_todo, Todo_findByIdAndUpdate. js_unfold.
    repeat status_case; status_done.
  - unfold post_users. cbn zeta.
    generalize (pick body ["email"; "password"]) as picked. intros picked.
    unfold User_generateAuthToken, User_save. js_unfold.
    repeat status_case; status_done.
  - unfold authenticate, User_findByToken, users_me. js_unfold.
    repeat status_case; status_done.
  - unfold post_users_login. cbn zeta.
    generalize (pick body ["email"; "password"]) as picked. intros picked.
    unfold User_findByCredentials, User_generateAuthToken, User_save.
    js_unfold. repeat status_case. all: status_done.
Qed.

End Status.

(** C3 (the claim as stated fails). GET /todos/:id with a well-formed id
    whose store operation fails at store level is answered with 404, not with
    400. *)
Lemma get_todo_store_failure_404 :
  ObjectId_isValid id1 = true
  /\ @store_failed demo_primitives demo_env (GetTodo id1) down_world = true
  /\ @response demo_primitives demo_env (GetTodo id1) down_world
     = Some {| resp_status := 404; resp_headers := []; resp_body := None |}
  /\ ~ (forall r, @response demo_primitives demo_env (GetTodo id1) down_world = Some r ->
        resp_status r = 400).
Proof.
  repeat split; try (vm_compute; reflexivity).
  intros H. specialize (H _ eq_refl). vm_compute in H. discriminate H.
Qed.

Lemma handlers_status_witness :
  exists r, @response demo_primitives demo_env (DeleteTodo id1) down_world = Some r
    /\ resp_status r = 404.
Proof.
  destruct (@handlers_status demo_primitives demo_env (DeleteTodo id1) down_world)
    as (r & Hr & _ & Hf).
  exists r. split; [exact Hr|]. apply Hf. vm_compute. reflexivity.
Defined.

(** ** PATCH /todos/:id: the update document *)

(** The update document keeps the caller's [text] as it is. *)
Lemma patch_update_text (env : Env) (body : ReqBody) :
  obj_get (patch_update env body) "text" = body_get body "text".
Proof.
  unfold patch_update. cbn [pick].
  destruct (body_get body "text") as [v|];
    destruct (body_get body "completed") as [[| [] | | | |]|]; reflexivity.
Qed.

(** With [completed: true] the document carries [true] and the time. *)
Lemma patch_update_true (env : Env) (body : ReqBody) :
  body_get body "completed" = Some (JBool true) ->
  obj_get (patch_update env body) "completed" = Some (JBool true)
  /\ obj_get (patch_update env body) "completedAt" = Some (JNum (now env)).
Proof.
  intros H. unfold patch_update. cbn [pick]. rewrite H.
  destruct (body_get body "text"); split; reflexivity.
Qed.

(** With anything else it carries [false] and [null]. *)
Lemma patch_update_other (env : Env) (body : ReqBody) :
  body_get body "completed" <> Some (JBool true) ->
  obj_get (patch_update env body) "completed" = Some (JBool false)
  /\ obj_get (patch_update env body) "completedAt" = Some JNull.
Proof.
  intros H. unfold patch_update. cbn [pick].
  destruct (body_get body "text");
    destruct (body_get body "completed") as [[| [] | | | |]|];
    try (split; reflexivity); by destruct H.
Qed.

Lemma completed_true_dec (v : option json) :
  v = Some (JBool true) \/ v <> Some (JBool true).
Proof. destruct v as [[| [] | | | |]|]; (by left) || (by right). Qed.

(** An update document of the handler whose [text] is absent or a string is
    cast without error. *)
Lemma patch_update_cast (env : Env) (body : ReqBody) (t : Todo) :
  (forall v, body_get body "text" = Some v -> exists s, v = JStr s) ->
  exists t', Todo_cast_update (patch_update env body) t = Some t'
    /\ (body_get body "completed" = Some (JBool true) ->
        completed t' = true /\ completedAt t' = Some (now env))
    /\ (body_get body "completed" <> Some (JBool true) ->
        completed t' = false /\ completedAt t' = None).
Proof.
  intros Htext. unfold Todo_cast_update.
  rewrite patch_update_text.
  destruct (completed_true_dec (body_get body "completed")) as [Hc|Hc].
  - destruct (patch_update_true env body Hc) as [-> ->].
    destruct (body_get body "text") as [v|] eqn:Ht.
    + destruct (Htext v eq_refl) as [s ->].
      eexists; split; [reflexivity|]. cbn. split; [done|]. intros []; done.
    + eexists; split; [reflexivity|]. cbn. split; [done|]. intros []; done.
  - destruct (patch_update_other env body Hc) as [-> ->].
    destruct (body_get body "text") as [v|] eqn:Ht.
    + destruct (Htext v eq_refl) as [s ->].
      eexists; split; [reflexivity|]. cbn. split; [|done]. intros; done.
    + eexists; split; [reflexivity|]. cbn. split; [|done]. intros; done.
Qed.

(** Such an update document passes the cast that precedes the command. *)
Lemma patch_update_castable (env : Env) (body : ReqBody) :
  (forall v, body_get body "text" = Some v -> exists s, v = JStr s) ->
  Todo_castable (patch_update env body) = true.
Proof.
  intros Htext. unfold Todo_castable.
  destruct (patch_update_cast env body
              {| text := EmptyString; completed := false; completedAt := None |}
              Htext) as (t' & -> & _).
  reflexivity.
Qed.

(** C4. PATCH /todos/:id on an existing todo, when the store performs the
    update (the operation does not fail, and the text, if given, is a
    string): the answer is 200 with the updated todo, and the stored todo has
    [completed] true and [completedAt] the current time when the body's
    [completed] is the boolean true, and [completed] false and [completedAt]
    null in every other case. *)
Theorem patch_todo_completedAt
    (env : Env) (w : World) (id k : string) (t : Todo) (body : ReqBody) :
  ObjectId_cast id = Some k ->
  todos w !! k = Some t ->
  fault w (CallTodoFindByIdAndUpdate id (patch_update env body)) = false ->
  (forall v, body_get body "text" = Some v -> exists s, v = JStr s) ->
  exists t',
    reply (patch_todo env id body) w
      = Some {| resp_status := 200; resp_headers := [];
                resp_body := Some (todo_body (Some (k, t'))) |}
    /\ todos (run (patch_todo env id body) w) = <[k := t']> (todos w)
    /\ (body_get body "completed" = Some (JBool true) ->
        completed t' = true /\ completedAt t' = Some (now env))
    /\ (body_get body "completed" <> Some (JBool true) ->
        completed t' = false /\ completedAt t' = None).
Proof.
  intros Hk Ht Hfault Htext.
  destruct (patch_update_cast env body t Htext) as (t' & Hcast & Htrue & Hother).
  exists t'.
  assert (Hv : ObjectId_isValid id = true) by (apply isValid_cast; eauto).
  unfold patch_todo, Todo_findByIdAndUpdate. rewrite Hv. js_unfold.
  rewrite Hk, (patch_update_castable env body Htext), Hfault. cbn.
  rewrite Ht, Hcast. cbn.
  done.
Qed.

Lemma patch_todo_completedAt_witness :
  exists t',
    todos (run (patch_todo demo_env id1
                  (BodyObject [("completed", JBool true); ("text", JStr "X")]))
               demo_world)
      = <[id1 := t']> (todos demo_world)
    /\ completed t' = true /\ completedAt t' = Some (now demo_env).
Proof.
  destruct (patch_todo_completedAt demo_env demo_world id1 id1
              {| text := "First test todo"; completed := false;
                 completedAt := None |}
              (BodyObject [("completed", JBool true); ("text", JStr "X")]))
    as (t' & _ & Hst & Htrue & _).
  - reflexivity.
  - vm_compute. reflexivity.
  - reflexivity.
  - intros v Hv. cbn in Hv. injection Hv as <-. by exists "X".
  - exists t'. split; [exact Hst|]. apply Htrue. reflexivity.
Defined.

(** ** POST /todos *)

(** C5 (the claim as stated fails). The text " x " is not empty, and the todo
    that POST /todos persists for it has the text "x"; the text of two
    spaces is not empty either, and POST /todos answers it with 400. *)
Lemma post_todos_text_is_trimmed :
  todos (run (post_todos demo_env (BodyObject [("text", JStr " x ")])) demo_world)
    !! new_id demo_env
  = Some {| text := "x"; completed := false; completedAt := None |}
  /\ "x" <> " x "
  /\ resp_status <$> reply (post_todos demo_env (BodyObject [("text", JStr "  ")]))
                       demo_world = Some 400.
Proof. repeat split; try (vm_compute; reflexivity). discriminate. Qed.

(** C5 (as amended). POST /todos with a text that is omitted, or empty once
    trimmed, answers 400 and leaves the collection unchanged; with a text [t]
    that is not empty once trimmed, and when the insertion does not fail in
    the store (no store-level failure, the generated id not in use), it
    answers 200 and persists exactly one additional todo, with the trimmed
    [t] as text, [completed] false and [completedAt] null. *)
Theorem post_todos_create (env : Env) (w : World) (body : ReqBody) :
  ((body_get body "text" = None
    \/ exists s, body_get body "text" = Some (JStr s) /\ trim s = EmptyString) ->
   resp_status <$> reply (post_todos env body) w = Some 400
   /\ todos (run (post_todos env body) w) = todos w)
  /\ (forall t,
        body_get body "text" = Some (JStr t) ->
        trim t <> EmptyString ->
        fault w (CallTodoSave (new_id env) (body_get body "text")) = false ->
        todos w !! new_id env = None ->
        let todo := {| text := trim t; completed := false; completedAt := None |} in
        reply (post_todos env body) w
          = Some {| resp_status := 200; resp_headers := [];
                    resp_body := Some (Todo_toJSON (new_id env, todo)) |}
        /\ todos (run (post_todos env body) w) = <[new_id env := todo]> (todos w)
        /\ size (todos (run (post_todos env body) w)) = S (size (todos w))).
Proof.
  split.
  - intros Hbad.
    assert (Hval : Todo_validate (body_get body "text") = None).
    { destruct Hbad as [-> | (s & -> & Hs)]; [done|].
      unfold Todo_validate. by rewrite Hs. }
    unfold post_todos, Todo_save. js_unfold. rewrite Hval. cbn. done.
  - intros t Ht Hne Hfault Hfree todo.
    assert (Hval : Todo_validate (body_get body "text") = Some todo).
    { rewrite Ht. unfold Todo_validate.
      destruct (String.eqb_spec (trim t) EmptyString); [done|reflexivity]. }
    unfold post_todos, Todo_save. js_unfold.
    rewrite Hval, Hfault. cbn. rewrite Hfree. cbn.
    split; [done|]. split; [done|]. by apply map_size_insert_None.
Qed.

Lemma post_todos_create_witness :
  (resp_status <$> reply (post_todos demo_env (BodyObject [])) demo_world = Some 400
   /\ todos (run (post_todos demo_env (BodyObject [])) demo_world)
      = todos demo_world)
  /\ size (todos (run (post_todos demo_env (BodyObject [("text", JStr " x ")]))
                      demo_world))
     = S (size (todos demo_world)).
Proof.
  split.
  - apply (post_todos_create demo_env demo_world (BodyObject [])).
    left. reflexivity.
  - apply (post_todos_create demo_env demo_world
             (BodyObject [("text", JStr " x ")])) with (t := " x ").
    + reflexivity.
    + vm_compute. discriminate.
    + reflexivity.
    + vm_compute. reflexivity.
Defined.

(** The no-break space is trimmed like the space: a text made of it is
    rejected. *)
Example post_todos_no_break_space :
  trim (String (ascii_of_nat 160) (String " " EmptyString)) = EmptyString
  /\ resp_status
       <$> reply (post_todos demo_env
                    (BodyObject [("text", JStr (String (ascii_of_nat 160)
                                                  EmptyString))]))
             demo_world
     = Some 400.
Proof. split; vm_compute; reflexivity. Qed.

(** ** DELETE /todos/:id *)

Lemma to_lower_hex (c : ascii) : is_lower_hex c = true -> to_lower c = c.
Proof.
  destruct c as [[] [] [] [] [] [] [] []]; intros H;
    (reflexivity || discriminate H).
Qed.

Lemma lower_hex_is_hex (s : string) :
  string_forallb is_lower_hex s = true -> string_forallb is_hex s = true.
Proof.
  induction s as [|c s IH]; cbn; [done|].
  intros [Hc Hs]%andb_prop. unfold is_hex. rewrite Hc. cbn. by apply IH.
Qed.

Lemma lower_hex_fixed (s : string) :
  string_forallb is_lower_hex s = true -> string_map to_lower s = s.
Proof.
  induction s as [|c s IH]; cbn; [done|].
  intros [Hc Hs]%andb_prop. by rewrite (to_lower_hex c Hc), IH.
Qed.

(** The id that [toHexString] prints is cast to itself. *)
Lemma canonical_cast (k : string) :
  is_canonical_id k = true -> ObjectId_cast k = Some k.
Proof.
  unfold is_canonical_id, ObjectId_cast.
  intros [Hlen Hhex]%andb_prop.
  rewrite Hlen, (lower_hex_is_hex k Hhex). cbn.
  by rewrite (lower_hex_fixed k Hhex).
Qed.

(** C6. For the id of an existing stored todo, DELETE /todos/:id (when the
    store operation does not fail) answers 200 with the deleted document,
    whose [_id] is the requested id exactly; the document is removed from the
    collection, and a following GET /todos/:id with the same id answers 404
    with an empty body. *)
Theorem delete_todo_existing (w : World) (k : string) (t : Todo) :
  is_canonical_id k = true ->
  todos w !! k = Some t ->
  fault w (CallTodoFindByIdAndRemove k) = false ->
  exists doc,
    reply (delete_todo k) w
      = Some {| resp_status := 200; resp_headers := [];
                resp_body := Some (JObj [("todo", doc)]) |}
    /\ doc = Todo_toJSON (k, t)
    /\ json_get doc "_id" = Some (JStr k)
    /\ todos (run (delete_todo k) w) = delete k (todos w)
    /\ reply (get_todo k) (run (delete_todo k) w)
       = Some {| resp_status := 404; resp_headers := []; resp_body := None |}.
Proof.
  intros Hcanon Ht Hfault.
  pose proof (canonical_cast k Hcanon) as Hk.
  assert (Hv : ObjectId_isValid k = true) by (apply isValid_cast; eauto).
  assert (Hrun : run (delete_todo k) w
                 = set_sent {| resp_status := 200; resp_headers := [];
                               resp_body := Some (todo_body (Some (k, t))) |}
                     (set_statusCode 200
                        (set_todos (delete k (todos w))
                           (log_command (CallTodoFindByIdAndRemove k)
                              (log_call (CallTodoFindByIdAndRemove k)
                                 (fresh_res w)))))).
  { unfold delete_todo, Todo_findByIdAndRemove. rewrite Hv. js_unfold.
    rewrite Hk, Hfault. cbn. rewrite Ht. cbn. done. }
  exists (Todo_toJSON (k, t)).
  unfold reply at 1. rewrite Hrun. cbn.
  repeat split.
  apply (get_todo_missing _ k k Hk). cbn. apply lookup_delete_eq.
Qed.

Lemma delete_todo_existing_witness :
  is_canonical_id id1 = true
  /\ todos (run (delete_todo id1) demo_world) !! id1 = None
  /\ reply (get_todo id1) (run (delete_todo id1) demo_world)
     = Some {| resp_status := 404; resp_headers := []; resp_body := None |}.
Proof.
  split; [reflexivity|].
  destruct (delete_todo_existing demo_world id1
              {| text := "First test todo"; completed := false;
                 completedAt := None |})
    as (doc & _ & _ & _ & Hst & Hget).
  - reflexivity.
  - vm_compute. reflexivity.
  - reflexivity.
  - split; [|exact Hget]. rewrite Hst. apply lookup_delete_eq.
Defined.

(** ** The user routes *)

Section Users.
Context {prim : Primitives}.

Lemma users_find_lookup (p : User -> bool) (m : gmap string User) (d : string * User) :
  users_find p m = Some d -> m !! fst d = Some (snd d) /\ p (snd d) = true.
Proof.
  unfold users_find. intros [Hin Hp]%find_some. split; [|done].
  apply list_elem_of_In in Hin. destruct d as [k u].
  by apply elem_of_map_to_list in Hin.
Qed.

(** A new document that passes validation has a string as email. *)
Lemma User_validate_email (u : UserDoc) (em pw : string) :
  User_validate u = Some (em, pw) -> u_email u = Some (JStr em).
Proof.
  unfold User_validate.
  destruct (u_email u) as [[| | | e | |]|]; try done.
  destruct (u_password u) as [[| | | q | |]|]; try done.
  destruct (_ && _); [|done]. by intros [= -> _].
Qed.

(** POST /users either answers 400, or has saved the new user with the
    issued token and answers 200 with the token in the header. *)
Lemma post_users_run (env : Env) (w : World) (body : ReqBody) :
  resp_status <$> reply (post_users env body) w = Some 400
  \/ exists em pw,
       body_get body "email" = Some (JStr em)
       /\ body_get body "password" = Some (JStr pw)
       /\ run (post_users env body) w
          = set_sent
              {| resp_status := 200;
                 resp_headers := [("x-auth", jwt_sign (new_id env) "auth")];
                 resp_body := Some (JObj [("_id", JStr (new_id env));
                                          ("email", JStr em)]) |}
              (set_statusCode 200
                 (set_headers [("x-auth", jwt_sign (new_id env) "auth")]
                    (set_users
                       (<[new_id env :=
                            {| email := em;
                               password := bcrypt_hash (salt env) pw;
                               tokens := [{| access := "auth";
                                             token := jwt_sign (new_id env) "auth" |}]
                            |}]> (users w))
                       (log_command (CallUserSave (new_id env))
                          (log_call (CallUserSave (new_id env)) (fresh_res w)))))).
Proof.
  unfold post_users. cbn zeta.
  assert (Hem : obj_get (pick body ["email"; "password"]) "email"
                = body_get body "email").
  { cbn. destruct (body_get body "email"), (body_get body "password"); done. }
  assert (Hpw : obj_get (pick body ["email"; "password"]) "password"
                = body_get body "password").
  { cbn. destruct (body_get body "email"), (body_get body "password"); done. }
  revert Hem Hpw.
  generalize (pick body ["email"; "password"]) as picked. intros picked Hem Hpw.
  unfold User_toJSON, User_new. cbn [u_id u_email].
  unfold User_generateAuthToken, User_save, push_token.
  cbn [u_id u_email u_password u_tokens u_isNew].
  js_unfold.
  destruct (User_validate _) as [[em pw]|] eqn:Hval; cbn; [|by left].
  destruct (fault w _); cbn; [by left|].
  pose proof Hval as Hval'. apply User_validate_email in Hval'. cbn in Hval'.
  unfold User_validate in Hval. cbn in Hval. rewrite Hem, Hpw in *.
  rewrite Hval' in Hval.
  destruct (body_get body "password") as [[| | | pw' | |]|]; try done.
  destruct (_ && _) in Hval; [|done]. injection Hval as ->.
  destruct (is_null (users w !! new_id env) && _); cbn; [|by left].
  destruct (String.eqb _ EmptyString); cbn; [by left|].
  right. exists em, pw. rewrite Hval'. done.
Qed.

(** POST /users/login either answers 400, or has found a stored user,
    appended the issued token to its list, and answers 200 with the token in
    the header. *)
Lemma post_users_login_run (env : Env) (w : World) (body : ReqBody) :
  resp_status <$> reply (post_users_login env body) w = Some 400
  \/ exists id u,
       users w !! id = Some u
       /\ run (post_users_login env body) w
          = set_sent
              {| resp_status := 200;
                 resp_headers := [("x-auth", jwt_sign id "auth")];
                 resp_body := Some (JObj [("_id", JStr id);
                                          ("email", JStr (email u))]) |}
              (set_headers [("x-auth", jwt_sign id "auth")]
                 (set_users
                    (alter (fun v =>
                              {| email := email v; password := password v;
                                 tokens := tokens u
                                           ++ [{| access := "auth";
                                                  token := jwt_sign id "auth" |}]
                              |}) id (users w))
                    (log_command (CallUserSave id)
                       (log_call (CallUserSave id)
                          (log_command
                             (CallUserFindOne
                                (obj_get (pick body ["email"; "password"]) "email"))
                             (log_call
                                (CallUserFindOne
                                   (obj_get (pick body ["email"; "password"])
                                      "email"))
                                (fresh_res w))))))).
Proof.
  unfold post_users_login. cbn zeta.
  generalize (pick body ["email"; "password"]) as picked. intros picked.
  unfold User_findByCredentials. js_unfold.
  destruct (fault w (CallUserFindOne _)); cbn; [by left|].
  destruct (obj_get picked "email") as [[| | | em | |]|];
    cbn; try (by left).
  destruct (users_find _ (users w)) as [[id u]|] eqn:Hfind; cbn; [|by left].
  apply users_find_lookup in Hfind as [Hu _]. cbn in Hu.
  destruct (obj_get picked "password") as [[| | | pw | |]|];
    cbn; try (by left).
  destruct (bcrypt_compare pw (password u)); cbn; [|by left].
  unfold User_generateAuthToken, User_save, push_token, User_load.
  cbn [u_id u_email u_password u_tokens u_isNew fst snd].
  js_unfold.
  destruct (fault w (CallUserSave id)); cbn; [by left|].
  right. exists id, u. done.
Qed.

(** Every 200 of the two routes is a user response. *)
Lemma user_200_shape
    (env : Env) (w : World) (body : ReqBody) (req : Request) (r : Response) :
  req = PostUsers body \/ req = PostUsersLogin body ->
  response env req w = Some r ->
  resp_status r = 200 ->
  exists id tok u b,
    r = user_reply id (email u) tok
    /\ header_get (resp_headers r) "x-auth" = Some tok
    /\ resp_body r = Some b
    /\ json_get b "_id" = Some (JStr id)
    /\ json_get b "email" = Some (JStr (email u))
    /\ json_get b "password" = None
    /\ json_get b "tokens" = None
    /\ users (serve env req w) !! id = Some u
    /\ In {| access := "auth"; token := tok |} (tokens u).
Proof.
  unfold response, serve. intros [-> | ->]; cbn [route].
  - destruct (post_users_run env w body) as [H400 | (em & pw & _ & _ & Hrun)].
    + unfold reply in H400. intros Hr Hs. rewrite Hr in H400. cbn in H400.
      congruence.
    + rewrite Hrun. cbn. intros [= <-] _.
      exists (new_id env), (jwt_sign (new_id env) "auth"),
        {| email := em; password := bcrypt_hash (salt env) pw;
           tokens := [{| access := "auth";
                         token := jwt_sign (new_id env) "auth" |}] |}.
      eexists.
      rewrite lookup_insert_eq.
      repeat split; cbn; tauto.
  - destruct (post_users_login_run env w body) as [H400 | (id & u & Hu & Hrun)].
    + unfold reply in H400. intros Hr Hs. rewrite Hr in H400. cbn in H400.
      congruence.
    + rewrite Hrun. cbn. intros [= <-] _.
      exists id, (jwt_sign id "auth"),
        {| email := email u; password := password u;
           tokens := tokens u
                     ++ [{| access := "auth"; token := jwt_sign id "auth" |}] |}.
      eexists.
      rewrite lookup_alter_eq, Hu. cbn.
      repeat split; cbn. apply in_or_app. right. cbn. tauto.
Qed.

Lemma users_find_none (p : User -> bool) (m : gmap string User) :
  (forall id u, m !! id = Some u -> p u = false) -> users_find p m = None.
Proof.
  intros H. unfold users_find.
  destruct (find _ _) as [[id u]|] eqn:E; [|done].
  apply find_some in E as [Hin Hp].
  apply list_elem_of_In, elem_of_map_to_list in Hin. cbn in Hp.
  rewrite (H id u Hin) in Hp. done.
Qed.

Lemma users_find_unique (p : User -> bool) (m : gmap string User)
    (id : string) (u : User) :
  m !! id = Some u ->
  p u = true ->
  (forall id' u', m !! id' = Some u' -> p u' = true -> id' = id) ->
  users_find p m = Some (id, u).
Proof.
  intros Hu Hp Huniq. unfold users_find.
  destruct (find _ _) as [[id' u']|] eqn:E.
  - apply find_some in E as [Hin Hp'].
    apply list_elem_of_In, elem_of_map_to_list in Hin. cbn in Hp'.
    assert (id' = id) as -> by eauto. congruence.
  - exfalso.
    assert (Hin : In (id, u) (map_to_list m))
      by (apply list_elem_of_In, elem_of_map_to_list; exact Hu).
    apply (find_none _ _ E) in Hin. cbn in Hin. congruence.
Qed.

(** A signup with a well-formed email that is not registered, a password of
    the minimum length, a free id, a store that does not fail and a token
    that is not empty is answered with the user response, and the user is
    stored with the hash of the password and the token. *)
Lemma post_users_success (env : Env) (w : World) (body : ReqBody) (em pw : string) :
  body_get body "email" = Some (JStr em) ->
  body_get body "password" = Some (JStr pw) ->
  isEmail em = true ->
  (min_password_length <= String.length pw)%nat ->
  users w !! new_id env = None ->
  (forall id u, users w !! id = Some u -> email u <> em) ->
  fault w (CallUserSave (new_id env)) = false ->
  jwt_sign (new_id env) "auth" <> EmptyString ->
  response env (PostUsers body) w
    = Some (user_reply (new_id env) em (jwt_sign (new_id env) "auth"))
  /\ users (serve env (PostUsers body) w) !! new_id env
     = Some {| email := em;
               password := bcrypt_hash (salt env) pw;
               tokens := [{| access := "auth";
                             token := jwt_sign (new_id env) "auth" |}] |}.
Proof.
  intros Hem Hpw Hmail Hlen Hfree Hnew Hfault Htok.
  unfold response, serve. cbn [route]. unfold post_users. cbn zeta.
  assert (Hem' : obj_get (pick body ["email"; "password"]) "email"
                 = Some (JStr em)).
  { cbn. by rewrite Hem. }
  assert (Hpw' : obj_get (pick body ["email"; "password"]) "password"
                 = Some (JStr pw)).
  { cbn. by rewrite Hem, Hpw. }
  revert Hem' Hpw'.
  generalize (pick body ["email"; "password"]) as picked. intros picked Hem' Hpw'.
  unfold User_toJSON, User_new. cbn [u_id u_email].
  unfold User_generateAuthToken, User_save, push_token, User_validate.
  cbn [u_id u_email u_password u_tokens u_isNew].
  rewrite Hem', Hpw', Hmail.
  apply Nat.leb_le in Hlen. rewrite Hlen.
  cbn [andb fmap option_fmap option_map].
  js_unfold. rewrite Hfault. cbn. rewrite Hfree.
  rewrite (users_find_none _ (users w)); cbn.
  - destruct (String.eqb_spec (jwt_sign (new_id env) "auth") EmptyString)
      as [E|_]; [by destruct (Htok E)|].
    cbn. split; [reflexivity|]. apply lookup_insert_eq.
  - intros id u Hu. apply String.eqb_neq. by apply (Hnew id u).
Qed.

(** A login with the email, in any case of the letters, and the password of
    the one stored user that has this email, the store not failing, is
    answered with the user response, and the token is appended to the token
    list of that user. *)
Lemma post_users_login_success
    (env : Env) (w : World) (body : ReqBody) (em pw id : string) (u : User) :
  body_get body "email" = Some (JStr em) ->
  body_get body "password" = Some (JStr pw) ->
  users w !! id = Some u ->
  string_map to_lower (email u) = string_map to_lower em ->
  (forall id' u', users w !! id' = Some u' ->
     string_map to_lower (email u') = string_map to_lower em -> id' = id) ->
  bcrypt_compare pw (password u) = true ->
  fault w (CallUserFindOne (Some (JStr em))) = false ->
  fault w (CallUserSave id) = false ->
  response env (PostUsersLogin body) w
    = Some (user_reply id (email u) (jwt_sign id "auth"))
  /\ users (serve env (PostUsersLogin body) w) !! id
     = Some {| email := email u;
               password := password u;
               tokens := tokens u
                         ++ [{| access := "auth";
                                token := jwt_sign id "auth" |}] |}.
Proof.
  intros Hem Hpw Hu Hmatch Huniq Hcmp Hfind Hsave.
  unfold response, serve. cbn [route]. unfold post_users_login. cbn zeta.
  assert (Hem' : obj_get (pick body ["email"; "password"]) "email"
                 = Some (JStr em)).
  { cbn. by rewrite Hem. }
  assert (Hpw' : obj_get (pick body ["email"; "password"]) "password"
                 = Some (JStr pw)).
  { cbn. by rewrite Hem, Hpw. }
  revert Hem' Hpw'.
  generalize (pick body ["email"; "password"]) as picked. intros picked Hem' Hpw'.
  unfold User_findByCredentials. rewrite Hem', Hpw'. js_unfold.
  rewrite Hfind. cbn.
  rewrite (users_find_unique _ (users w) id u Hu).
  - cbn. rewrite Hcmp. cbn.
    unfold User_generateAuthToken, User_save, push_token, User_load.
    cbn [u_id u_email u_password u_tokens u_isNew fst snd].
    js_unfold. rewrite Hsave. cbn.
    split; [reflexivity|]. by rewrite lookup_alter_eq, Hu.
  - by apply String.eqb_eq.
  - intros id' u' Hu' Hp. apply (Huniq id' u' Hu'). by apply String.eqb_eq.
Qed.

(** C7. A valid signup and a valid login are answered with status 200, the
    issued token in the [x-auth] header and, as body, the user record
    reduced to the id and the email; and every response of POST /users and
    of POST /users/login that has status 200 is of this shape: its body has
    no password and no token list, and the token in the header is the one
    just appended to the stored user's token list. *)
Theorem user_response_shape (env : Env) (w : World) (body : ReqBody) :
  (forall em pw,
     body_get body "email" = Some (JStr em) ->
     body_get body "password" = Some (JStr pw) ->
     isEmail em = true ->
     (min_password_length <= String.length pw)%nat ->
     users w !! new_id env = None ->
     (forall id u, users w !! id = Some u -> email u <> em) ->
     fault w (CallUserSave (new_id env)) = false ->
     jwt_sign (new_id env) "auth" <> EmptyString ->
     response env (PostUsers body) w
       = Some (user_reply (new_id env) em (jwt_sign (new_id env) "auth"))
     /\ users (serve env (PostUsers body) w) !! new_id env
        = Some {| email := em;
                  password := bcrypt_hash (salt env) pw;
                  tokens := [{| access := "auth";
                                token := jwt_sign (new_id env) "auth" |}] |})
  /\ (forall em pw id u,
        body_get body "email" = Some (JStr em) ->
        body_get body "password" = Some (JStr pw) ->
        users w !! id = Some u ->
        string_map to_lower (email u) = string_map to_lower em ->
        (forall id' u', users w !! id' = Some u' ->
           string_map to_lower (email u') = string_map to_lower em -> id' = id) ->
        bcrypt_compare pw (password u) = true ->
        fault w (CallUserFindOne (Some (JStr em))) = false ->
        fault w (CallUserSave id) = false ->
        response env (PostUsersLogin body) w
          = Some (user_reply id (email u) (jwt_sign id "auth"))
        /\ users (serve env (PostUsersLogin body) w) !! id
           = Some {| email := email u;
                     password := password u;
                     tokens := tokens u
                               ++ [{| access := "auth";
                                      token := jwt_sign id "auth" |}] |})
  /\ (forall req r,
        req = PostUsers body \/ req = PostUsersLogin body ->
        response env req w = Some r ->
        resp_status r = 200 ->
        exists id tok u b,
          r = user_reply id (email u) tok
          /\ header_get (resp_headers r) "x-auth" = Some tok
          /\ resp_body r = Some b
          /\ json_get b "_id" = Some (JStr id)
          /\ json_get b "email" = Some (JStr (email u))
          /\ json_get b "password" = None
          /\ json_get b "tokens" = None
          /\ users (serve env req w) !! id = Some u
          /\ In {| access := "auth"; token := tok |} (tokens u)).
Proof.
  split; [|split].
  - intros em pw. apply post_users_success.
  - intros em pw id u. apply post_users_login_success.
  - intros req r. apply user_200_shape.
Qed.

(** ** GET /users/me and the middleware *)

(** C8. GET /users/me with an [x-auth] header whose token verifies and is in
    the token list of the user it names (the store operation not failing)
    answers 200 with that user's id and email.  When the header is missing,
    the token does not verify, or no user holds it, the middleware answers
    401 with an empty body whatever the wrapped handler [next] is: the
    handler is not invoked. *)
Theorem users_me_authenticated (env : Env) (w : World) (x_auth : option string) :
  (forall tok id acc u,
     x_auth = Some tok ->
     jwt_verify tok = Some (id, acc) ->
     users w !! id = Some u ->
     has_token tok u = true ->
     fault w (CallUserFindByToken tok) = false ->
     response env (GetUsersMe x_auth) w
       = Some {| resp_status := 200; resp_headers := [];
                 resp_body := Some (JObj [("_id", JStr id);
                                          ("email", JStr (email u))]) |})
  /\ ((x_auth = None
       \/ (exists tok, x_auth = Some tok /\ jwt_verify tok = None)
       \/ (exists tok id acc,
             x_auth = Some tok /\ jwt_verify tok = Some (id, acc)
             /\ (users w !! id = None
                 \/ exists u, users w !! id = Some u /\ has_token tok u = false))) ->
      forall next : UserDoc -> M unit,
        reply (authenticate x_auth next) w
          = Some {| resp_status := 401; resp_headers := []; resp_body := None |}
        /\ users (run (authenticate x_auth next) w) = users w
        /\ todos (run (authenticate x_auth next) w) = todos w).
Proof.
  split.
  - intros tok id acc u -> Hver Hu Htok Hfault.
    unfold response, serve. cbn [route].
    unfold authenticate, User_findByToken, users_me. rewrite Hver. js_unfold.
    rewrite Hfault. cbn. rewrite Hu, Htok. cbn. done.
  - intros Hbad next.
    unfold authenticate, User_findByToken.
    destruct Hbad as [-> | [(tok & -> & Hver) | (tok & id & acc & -> & Hver & Hu)]].
    + js_unfold. done.
    + rewrite Hver. js_unfold. done.
    + rewrite Hver. js_unfold.
      destruct (fault w _); cbn; [done|].
      destruct Hu as [-> | (u & -> & ->)]; cbn; done.
Qed.

End Users.

Lemma user_response_shape_witness :
  @response demo_primitives demo_env
    (PostUsers (BodyObject [("email", JStr "a@b.c"); ("password", JStr "123456")]))
    demo_world
  = Some (user_reply id3 "a@b.c" (id3 +:+ ".auth"))
  /\ @response demo_primitives demo_env
       (PostUsersLogin (BodyObject [("email", JStr "Andrew@Example.com");
                                    ("password", JStr "userOnePass")]))
       demo_world
     = Some (user_reply id1 "andrew@example.com" (id1 +:+ ".auth")).
Proof.
  split.
  - apply (proj1 (@user_response_shape demo_primitives demo_env demo_world
                    (BodyObject [("email", JStr "a@b.c");
                                 ("password", JStr "123456")]))
             "a@b.c" "123456"); try reflexivity.
    + intros id u Hu.
      destruct (decide (id = id1)) as [->|Hne].
      * vm_compute in Hu. injection Hu as <-. discriminate.
      * unfold demo_world in Hu. cbn [users] in Hu.
        rewrite lookup_insert_ne in Hu by congruence.
        rewrite lookup_empty in Hu. discriminate Hu.
    + discriminate.
  - apply (proj1 (proj2 (@user_response_shape demo_primitives demo_env demo_world
                    (BodyObject [("email", JStr "Andrew@Example.com");
                                 ("password", JStr "userOnePass")])))
             "Andrew@Example.com" "userOnePass" id1
             {| email := "andrew@example.com"; password := "s0:userOnePass";
                tokens := [{| access := "auth"; token := id1 +:+ ".auth" |}] |});
      try reflexivity.
    intros id' u' Hu' _.
    destruct (decide (id' = id1)) as [->|Hne]; [reflexivity|].
    unfold demo_world in Hu'. cbn [users] in Hu'.
    rewrite lookup_insert_ne in Hu' by congruence.
    rewrite lookup_empty in Hu'. discriminate Hu'.
Defined.

Lemma users_me_authenticated_witness :
  @response demo_primitives demo_env (GetUsersMe (Some (id1 +:+ ".auth"))) demo_world
    = Some {| resp_status := 200; resp_headers := [];
              resp_body := Some (JObj [("_id", JStr id1);
                                       ("email", JStr "andrew@example.com")]) |}
  /\ forall next : UserDoc -> M unit,
       reply (@authenticate demo_primitives None next) demo_world
       = Some {| resp_status := 401; resp_headers := []; resp_body := None |}.
Proof.
  split.
  - apply (proj1 (@users_me_authenticated demo_primitives demo_env demo_world
                    (Some (id1 +:+ ".auth")))
             (id1 +:+ ".auth") id1 "auth"
             {| email := "andrew@example.com"; password := "s0:userOnePass";
                tokens := [{| access := "auth"; token := id1 +:+ ".auth" |}] |});
      reflexivity.
  - intros next.
    apply (proj2 (@users_me_authenticated demo_primitives demo_env demo_world None)).
    left. reflexivity.
Defined.

(** ** What the handlers take from a request body *)

(** [_.pick] reads the listed keys only. *)
Lemma pick_ext (b1 b2 : ReqBody) (ks : list string) :
  (forall k, In k ks -> body_get b1 k = body_get b2 k) ->
  pick b1 ks = pick b2 ks.
Proof.
  induction ks as [|k ks IH]; intros H; cbn; [done|].
  rewrite (H k) by (left; reflexivity).
  rewrite IH by (intros k' Hk'; apply H; right; exact Hk').
  reflexivity.
Qed.

(** The update documents of two bodies that agree on [text] and [completed]
    are cast alike, whatever the two clocks show, up to [completedAt]. *)
Lemma patch_update_cast_clock (env1 env2 : Env) (b1 b2 : ReqBody) (t : Todo) :
  body_get b1 "text" = body_get b2 "text" ->
  body_get b1 "completed" = body_get b2 "completed" ->
  match Todo_cast_update (patch_update env1 b1) t,
        Todo_cast_update (patch_update env2 b2) t with
  | Some t1, Some t2 => text t1 = text t2 /\ completed t1 = completed t2
  | None, None => True
  | _, _ => False
  end.
Proof.
  intros Ht Hc. unfold Todo_cast_update. rewrite !patch_update_text, <- Ht.
  destruct (completed_true_dec (body_get b1 "completed")) as [H1|H1].
  - pose proof H1 as H2. rewrite Hc in H2.
    destruct (patch_update_true env1 b1 H1) as [-> ->].
    destruct (patch_update_true env2 b2 H2) as [-> ->].
    destruct (body_get b1 "text") as [[| | | s | |]|]; cbn; done.
  - pose proof H1 as H2. rewrite Hc in H2.
    destruct (patch_update_other env1 b1 H1) as [-> ->].
    destruct (patch_update_other env2 b2 H2) as [-> ->].
    destruct (body_get b1 "text") as [[| | | s | |]|]; cbn; done.
Qed.

(** They pass the cast that precedes the command alike. *)
Lemma patch_update_castable_clock (env1 env2 : Env) (b1 b2 : ReqBody) :
  body_get b1 "text" = body_get b2 "text" ->
  body_get b1 "completed" = body_get b2 "completed" ->
  Todo_castable (patch_update env1 b1) = Todo_castable (patch_update env2 b2).
Proof.
  intros Ht Hc. unfold Todo_castable.
  pose proof (patch_update_cast_clock env1 env2 b1 b2
                {| text := EmptyString; completed := false; completedAt := None |}
                Ht Hc) as H.
  destruct (Todo_cast_update (patch_update env1 b1) _),
    (Todo_cast_update (patch_update env2 b2) _); done.
Qed.

(** C9. Two bodies of PATCH /todos/:id that agree on [text] and on
    [completed] give the same update document and leave the same state
    behind, response included, so nothing else in a body (a [completedAt] of
    the caller's, any other field) has an effect.  When the two requests are
    served at different times, and the store fails for both or for neither,
    the statuses are the same and the stored todos agree on [text] and
    [completed]: only the derived [completedAt] may differ. *)
Theorem patch_todo_only_text_completed
    (env : Env) (w : World) (id : string) (b1 b2 : ReqBody) :
  body_get b1 "text" = body_get b2 "text" ->
  body_get b1 "completed" = body_get b2 "completed" ->
  patch_update env b1 = patch_update env b2
  /\ run (patch_todo env id b1) w = run (patch_todo env id b2) w
  /\ forall env2,
       fault w (CallTodoFindByIdAndUpdate id (patch_update env b1))
       = fault w (CallTodoFindByIdAndUpdate id (patch_update env2 b2)) ->
       resp_status <$> reply (patch_todo env id b1) w
       = resp_status <$> reply (patch_todo env2 id b2) w
       /\ forall k,
            (fun t => (text t, completed t))
              <$> todos (run (patch_todo env id b1) w) !! k
            = (fun t => (text t, completed t))
                <$> todos (run (patch_todo env2 id b2) w) !! k.
Proof.
  intros Ht Hc.
  assert (Hpick : pick b1 ["text"; "completed"] = pick b2 ["text"; "completed"]).
  { apply pick_ext. intros k [<- | [<- | []]]; assumption. }
  assert (Hupd : patch_update env b1 = patch_update env b2).
  { unfold patch_update. by rewrite Hpick. }
  split; [exact Hupd|]. split.
  { unfold patch_todo. by rewrite Hupd. }
  intros env2 Hfault.
  pose proof (patch_update_castable_clock env env2 b1 b2 Ht Hc) as Hcastable.
  unfold patch_todo, Todo_findByIdAndUpdate.
  destruct (ObjectId_isValid id); js_unfold;
    (destruct (ObjectId_cast id) as [k0|]; cbn; [|done]);
    rewrite <- Hcastable;
    (destruct (Todo_castable (patch_update env b1)); cbn; [|done]);
    rewrite <- Hfault;
    (destruct (fault w _); cbn; [done|]);
    (destruct (todos w !! k0) as [t|] eqn:Hk0; cbn; [|done]).
  all: pose proof (patch_update_cast_clock env env2 b1 b2 t Ht Hc) as Hcast.
  all: destruct (Todo_cast_update (patch_update env b1) _) as [t1|];
    destruct (Todo_cast_update (patch_update env2 b2) _) as [t2|];
    try done; cbn.
  all: split; [done|]; intros k.
  all: destruct Hcast as [Htx Hco];
    destruct (decide (k0 = k)) as [<-|Hne];
    [rewrite !lookup_insert_eq; cbn; by rewrite Htx, Hco
    |by rewrite !lookup_insert_ne].
Qed.

Lemma patch_todo_only_text_completed_witness :
  run (patch_todo demo_env id1
         (BodyObject [("text", JStr "X"); ("completed", JBool true)])) demo_world
  = run (patch_todo demo_env id1
           (BodyObject [("completedAt", JNum 5); ("text", JStr "X");
                        ("_id", JStr id2); ("completed", JBool true)])) demo_world.
Proof.
  apply (patch_todo_only_text_completed demo_env demo_world id1
           (BodyObject [("text", JStr "X"); ("completed", JBool true)])
           (BodyObject [("completedAt", JNum 5); ("text", JStr "X");
                        ("_id", JStr id2); ("completed", JBool true)]));
    reflexivity.
Defined.

Section Signup.
Context {prim : Primitives}.

(** C10. Two bodies of POST /users that agree on [email] and on [password]
    build the same user document and leave the same state behind, created
    user and response included: a [tokens] array, an [_id] or any other
    field of the caller's has no effect. *)
Theorem post_users_only_email_password
    (env : Env) (w : World) (b1 b2 : ReqBody) :
  body_get b1 "email" = body_get b2 "email" ->
  body_get b1 "password" = body_get b2 "password" ->
  User_new env (pick b1 ["email"; "password"])
  = User_new env (pick b2 ["email"; "password"])
  /\ serve env (PostUsers b1) w = serve env (PostUsers b2) w
  /\ users (serve env (PostUsers b1) w) = users (serve env (PostUsers b2) w)
  /\ response env (PostUsers b1) w = response env (PostUsers b2) w.
Proof.
  intros Hem Hpw.
  assert (Hpick : pick b1 ["email"; "password"] = pick b2 ["email"; "password"]).
  { apply pick_ext. intros k [<- | [<- | []]]; assumption. }
  assert (Hserve : serve env (PostUsers b1) w = serve env (PostUsers b2) w).
  { unfold serve. cbn [route]. unfold post_users. by rewrite Hpick. }
  unfold response. rewrite Hpick, Hserve. done.
Qed.

End Signup.

Lemma post_users_only_email_password_witness :
  users (@serve demo_primitives demo_env
           (PostUsers (BodyObject [("email", JStr "a@b.c");
                                   ("password", JStr "123456")])) demo_world)
  = users (@serve demo_primitives demo_env
             (PostUsers (BodyObject
                [("tokens", JArr [JObj [("access", JStr "auth");
                                        ("token", JStr "forged")]]);
                 ("email", JStr "a@b.c");
                 ("_id", JStr id1);
                 ("password", JStr "123456")])) demo_world).
Proof.
  apply (@post_users_only_email_password demo_primitives demo_env demo_world
           (BodyObject [("email", JStr "a@b.c"); ("password", JStr "123456")])
           (BodyObject
              [("tokens", JArr [JObj [("access", JStr "auth");
                                      ("token", JStr "forged")]]);
               ("email", JStr "a@b.c");
               ("_id", JStr id1);
               ("password", JStr "123456")]));
    reflexivity.
Defined.

(** The user that this signup creates holds the issued token only. *)
Example signup_ignores_forged_tokens :
  users (@serve demo_primitives demo_env
           (PostUsers (BodyObject
              [("tokens", JArr [JObj [("access", JStr "auth");
                                      ("token", JStr "forged")]]);
               ("email", JStr "a@b.c");
               ("_id", JStr id1);
               ("password", JStr "123456")])) demo_world) !! id3
  = Some {| email := "a@b.c"; password := "s1:123456";
            tokens := [{| access := "auth"; token := id3 +:+ ".auth" |}] |}.
Proof. vm_compute. reflexivity. Qed.

(** DELETE /todos/:id with the upper-case spelling of a stored id deletes
    the document and returns its id as the store prints it. *)
Example delete_todo_upper_case :
  reply (delete_todo "5A1F00000000000000000001") demo_world
  = Some {| resp_status := 200; resp_headers := [];
            resp_body :=
              Some (JObj [("todo",
                           JObj [("_id", JStr id1);
                                 ("text", JStr "First test todo");
                                 ("completed", JBool false);
                                 ("completedAt", JNull)])]) |}.
Proof. vm_compute. reflexivity. Qed.

(** * Further properties of the routes *)

(** ** The todo routes on their other branches *)

(** X1. GET /todos/:id with an id, in any spelling, that is cast to the
    key of a stored todo, the store operation not failing, answers 200 with
    that todo under its stored id, calls [findById] once and leaves the
    collection as it was. *)
Theorem get_todo_found (w : World) (id k : string) (t : Todo) :
  ObjectId_cast id = Some k ->
  todos w !! k = Some t ->
  fault w (CallTodoFindById id) = false ->
  reply (get_todo id) w
    = Some {| resp_status := 200; resp_headers := [];
              resp_body := Some (JObj [("todo", Todo_toJSON (k, t))]) |}
  /\ todos (run (get_todo id) w) = todos w
  /\ calls (run (get_todo id) w) = calls w ++ [CallTodoFindById id].
Proof.
  intros Hk Ht Hfault.
  assert (Hv : ObjectId_isValid id = true) by (apply isValid_cast; eauto).
  unfold get_todo, Todo_findById. rewrite Hv. js_unfold.
  rewrite Hk, Hfault. cbn. rewrite Ht. cbn. done.
Qed.

(** X5. DELETE /todos/:id with a valid id that no stored todo has answers
    404 with an empty body and leaves the collection as it was, whether or
    not the store operation fails. *)
Theorem delete_todo_not_found (w : World) (id k : string) :
  ObjectId_cast id = Some k ->
  todos w !! k = None ->
  reply (delete_todo id) w
    = Some {| resp_status := 404; resp_headers := []; resp_body := None |}
  /\ todos (run (delete_todo id) w) = todos w.
Proof.
  intros Hk Hmiss.
  assert (Hv : ObjectId_isValid id = true) by (apply isValid_cast; eauto).
  unfold delete_todo, Todo_findByIdAndRemove. rewrite Hv. js_unfold.
  rewrite Hk.
  destruct (fault w _); cbn; [done|].
  rewrite Hmiss. cbn. split; [done|]. by apply delete_id.
Qed.

(** X7. PATCH /todos/:id with a valid id that no stored todo has never
    answers 200: the 404 sent first is what the client receives although the
    handler goes on to the second send (or 400 when the store rejects the
    operation), the collection is unchanged, and the answer is 404 when the
    store operation does not fail and the text, if given, is a string. *)
Theorem patch_todo_not_found (env : Env) (w : World) (id k : string) (body : ReqBody) :
  ObjectId_cast id = Some k ->
  todos w !! k = None ->
  (reply (patch_todo env id body) w
     = Some {| resp_status := 404; resp_headers := []; resp_body := None |}
   \/ reply (patch_todo env id body) w
      = Some {| resp_status := 400; resp_headers := []; resp_body := None |})
  /\ todos (run (patch_todo env id body) w) = todos w
  /\ (fault w (CallTodoFindByIdAndUpdate id (patch_update env body)) = false ->
      (forall v, body_get body "text" = Some v -> exists s, v = JStr s) ->
      reply (patch_todo env id body) w
        = Some {| resp_status := 404; resp_headers := []; resp_body := None |}).
Proof.
  intros Hk Hmiss.
  assert (Hv : ObjectId_isValid id = true) by (apply isValid_cast; eauto).
  unfold patch_todo, Todo_findByIdAndUpdate. rewrite Hv. js_unfold.
  rewrite Hk.
  destruct (Todo_castable (patch_update env body)) eqn:Hc; cbn.
  - destruct (fault w _) eqn:Hf; cbn.
    { split; [by right|]. split; [done|]. intros; done. }
    rewrite Hmiss. cbn. split; [by left|]. done.
  - split; [by right|]. split; [done|]. intros _ Htext.
    rewrite (patch_update_castable env body Htext) in Hc. discriminate Hc.
Qed.

(** X2. GET /todos/:id answers 400 exactly when the id is not valid; it then
    sends the error message and calls no store operation, and with a valid id
    it calls [findById] exactly once. *)
Theorem get_todo_400_iff (w : World) (id : string) :
  (resp_status <$> reply (get_todo id) w = Some 400 <-> ObjectId_isValid id = false)
  /\ (ObjectId_isValid id = false ->
      reply (get_todo id) w
        = Some {| resp_status := 400; resp_headers := [];
                  resp_body := Some (JObj [("error", JStr "Todo id is not valid.")]) |}
      /\ calls (run (get_todo id) w) = calls w)
  /\ (ObjectId_isValid id = true ->
      calls (run (get_todo id) w) = calls w ++ [CallTodoFindById id]).
Proof.
  unfold get_todo, Todo_findById.
  destruct (ObjectId_isValid id) eqn:Hv; js_unfold.
  - repeat status_case; repeat split; try done; intros; discriminate.
  - repeat split; try done.
Qed.

(** X4. DELETE /todos/:id answers 400 exactly when the id is not valid; it
    then sends an empty body, calls no store operation and changes nothing,
    and with a valid id it calls [findByIdAndRemove] exactly once. *)
Theorem delete_todo_400_iff (w : World) (id : string) :
  (resp_status <$> reply (delete_todo id) w = Some 400 <-> ObjectId_isValid id = false)
  /\ (ObjectId_isValid id = false ->
      reply (delete_todo id) w
        = Some {| resp_status := 400; resp_headers := []; resp_body := None |}
      /\ calls (run (delete_todo id) w) = calls w
      /\ todos (run (delete_todo id) w) = todos w)
  /\ (ObjectId_isValid id = true ->
      calls (run (delete_todo id) w) = calls w ++ [CallTodoFindByIdAndRemove id]).
Proof.
  unfold delete_todo, Todo_findByIdAndRemove.
  destruct (ObjectId_isValid id) eqn:Hv; js_unfold.
  - repeat status_case; repeat split; try done; intros; discriminate.
  - repeat split; try done.
Qed.

Lemma Todo_toJSON_inj (d1 d2 : string * Todo) :
  Todo_toJSON d1 = Todo_toJSON d2 -> d1 = d2.
Proof.
  destruct d1 as [k1 [tx1 c1 ca1]], d2 as [k2 [tx2 c2 ca2]].
  unfold Todo_toJSON. cbn. intros H.
  injection H as -> -> -> Hca.
  destruct ca1, ca2; try discriminate; [injection Hca as ->|]; reflexivity.
Qed.

(** X11. GET /todos, when the store operation does not fail, answers 200
    with an array of as many entries as there are stored todos, in which the
    JSON of a todo occurs exactly when the todo is stored; when it fails the answer is 400 with the error;
    the collection is unchanged and [find] is called once. *)
Theorem get_todos_lists_all (w : World) :
  (fault w CallTodoFind = false ->
   exists items,
     reply get_todos w
       = Some {| resp_status := 200; resp_headers := [];
                 resp_body := Some (JObj [("todos", JArr items)]) |}
     /\ length items = size (todos w)
     /\ forall k t, todos w !! k = Some t <-> In (Todo_toJSON (k, t)) items)
  /\ (fault w CallTodoFind = true ->
      reply get_todos w
        = Some {| resp_status := 400; resp_headers := [];
                  resp_body := Some (error_body ErrStore) |})
  /\ todos (run get_todos w) = todos w
  /\ calls (run get_todos w) = calls w ++ [CallTodoFind].
Proof.
  unfold get_todos, Todo_find. js_unfold.
  destruct (fault w CallTodoFind); cbn.
  - split; [done|]. done.
  - split; [|done]. intros _.
    exists (map Todo_toJSON (map_to_list (todos w))).
    split; [done|]. split.
    + by rewrite length_map, length_map_to_list.
    + intros k t. rewrite in_map_iff. split.
      * intros H. exists (k, t). split; [done|].
        apply list_elem_of_In. by apply elem_of_map_to_list.
      * intros (d & Hd & Hin). apply Todo_toJSON_inj in Hd as ->.
        apply list_elem_of_In in Hin. by apply elem_of_map_to_list in Hin.
Qed.

(** Opens the handler of the route in the goal. *)
Ltac open_handler :=
  cbn [route];
  first
    [ progress unfold post_todos, Todo_save
    | progress unfold get_todos, Todo_find
    | progress unfold get_todo, Todo_findById
    | progress unfold delete_todo, Todo_findByIdAndRemove
    | progress unfold patch_todo, Todo_findByIdAndUpdate
    | progress unfold post_users; cbn zeta;
      match goal with
      | |- context [pick ?b ["email"; "password"]] =>
          generalize (pick b ["email"; "password"]); intros ?
      end;
      unfold User_generateAuthToken, User_save
    | progress unfold authenticate, User_findByToken, users_me
    | progress unfold post_users_login; cbn zeta;
      match goal with
      | |- context [pick ?b ["email"; "password"]] =>
          generalize (pick b ["email"; "password"]); intros ?
      end;
      unfold User_findByCredentials, User_generateAuthToken, User_save ];
  js_unfold.

Lemma Todo_validate_consistent (txt : option json) (t : Todo) :
  Todo_validate txt = Some t -> todo_consistent t.
Proof.
  unfold Todo_validate.
  destruct txt as [[| | | s | |]|]; try done.
  destruct (String.eqb _ _); [done|].
  intros [= <-]. unfold todo_consistent. cbn. split; done.
Qed.

(** Whatever the body and the todo before, the todo that an update document
    of the handler is cast to is consistent. *)
Lemma patch_cast_consistent (env : Env) (body : ReqBody) (t t' : Todo) :
  Todo_cast_update (patch_update env body) t = Some t' -> todo_consistent t'.
Proof.
  unfold Todo_cast_update.
  destruct (completed_true_dec (body_get body "completed")) as [Hc|Hc].
  - destruct (patch_update_true env body Hc) as [-> ->].
    destruct (obj_get _ "text") as [[| | | s | |]|]; try done;
      intros [= <-]; unfold todo_consistent; cbn; split; done.
  - destruct (patch_update_other env body Hc) as [-> ->].
    destruct (obj_get _ "text") as [[| | | s | |]|]; try done;
      intros [= <-]; unfold todo_consistent; cbn; split; done.
Qed.

Section Routes.
Context {prim : Primitives}.

(** X14. A route changes no collection but its own: only POST, DELETE and
    PATCH on todos change the todo collection, only POST /users and POST
    /users/login change the user collection, and the three GET routes change
    neither. *)
Theorem routes_write_their_collection (env : Env) (req : Request) (w : World) :
  (writes_todos req = false -> todos (serve env req w) = todos w)
  /\ (writes_users req = false -> users (serve env req w) = users w)
  /\ fault (serve env req w) = fault w.
Proof.
  unfold serve.
  destruct req; open_handler; repeat status_case;
    repeat split; try done; intros; discriminate.
Qed.

(** X15. A response with a status other than 200 has no header set by the
    handler, a 404 or 401 response has an empty body, and only the two
    routes that issue a token answer with an [x-auth] header. *)
Theorem failed_responses_are_bare (env : Env) (req : Request) (w : World) (r : Response) :
  response env req w = Some r ->
  (resp_status r <> 200 -> resp_headers r = [])
  /\ (resp_status r = 404 \/ resp_status r = 401 -> resp_body r = None)
  /\ (header_get (resp_headers r) "x-auth" <> None -> writes_users req = true).
Proof.
  unfold response, serve.
  destruct req; open_handler; repeat status_case;
    intros [= <-]; cbn; repeat split; try done;
    try (intros [H|H]; discriminate H).
Qed.

(** X16. A request that is answered with a status other than 200 has changed
    neither collection (for POST /users, provided the issued token is not the
    empty string, which the handler answers with 400 after the save). *)
Theorem failed_requests_change_nothing
    (env : Env) (req : Request) (w : World) (r : Response) :
  response env req w = Some r ->
  resp_status r <> 200 ->
  (forall body, req = PostUsers body -> jwt_sign (new_id env) "auth" <> EmptyString) ->
  todos (serve env req w) = todos w /\ users (serve env req w) = users w.
Proof.
  unfold response, serve.
  destruct req; open_handler; repeat status_case;
    intros [= <-] Hs Htok; cbn in *; try done.
  all: try (split; [by apply delete_id|done]).
  all: try (exfalso;
            match goal with
            | H : ObjectId_isValid ?i = false, H' : ObjectId_cast ?i = Some _ |- _ =>
                rewrite (invalid_cast i H) in H'; discriminate H'
            end).
  exfalso.
  match goal with
  | H : String.eqb _ EmptyString = true |- _ =>
      apply String.eqb_eq in H; exact (Htok _ eq_refl H)
  end.
Qed.

(** X17. Serving a request only appends to the log of store operations: at
    most one operation per request, two for POST /users/login, and no 200 is
    answered without a store operation. *)
Theorem store_calls_bounded (env : Env) (req : Request) (w : World) :
  exists cs,
    calls (serve env req w) = calls w ++ cs
    /\ length cs <= max_calls req
    /\ forall r, response env req w = Some r -> resp_status r = 200 -> cs <> [].
Proof.
  unfold response, serve.
  destruct req; open_handler; repeat status_case;
    eexists;
    (split;
     [first [exact (eq_sym (app_nil_r _)) | rewrite <- ?app_assoc; reflexivity]|]);
    cbn; (split; [lia|]); intros r [= <-]; cbn; try done.
Qed.

(** X18. If in every stored todo [completedAt] is set exactly when
    [completed] is true, the same holds after any request. *)
Theorem completedAt_invariant (env : Env) (req : Request) (w : World) :
  map_Forall (fun _ t => todo_consistent t) (todos w) ->
  map_Forall (fun _ t => todo_consistent t) (todos (serve env req w)).
Proof.
  unfold serve.
  destruct req; open_handler; repeat status_case; intros Hinv; try done.
  all: try (apply map_Forall_delete; exact Hinv).
  all: apply map_Forall_insert_2; [|exact Hinv].
  all: first [ eapply Todo_validate_consistent; eassumption
             | eapply patch_cast_consistent; eassumption ].
Qed.

End Routes.

(** ** What the writing routes leave alone *)

(** X9. PATCH /todos/:id neither creates nor deletes a document, and
    changes no todo but the one the id is cast to. *)
Theorem patch_todo_footprint (env : Env) (w : World) (id : string) (body : ReqBody) :
  dom (todos (run (patch_todo env id body) w)) = dom (todos w)
  /\ forall k', ObjectId_cast id <> Some k' ->
       todos (run (patch_todo env id body) w) !! k' = todos w !! k'.
Proof.
  unfold patch_todo, Todo_findByIdAndUpdate.
  destruct (ObjectId_isValid id); js_unfold;
    (destruct (ObjectId_cast id) as [k|]; cbn; [|done]);
    (destruct (Todo_castable _); cbn; [|done]);
    (destruct (fault w _); cbn; [done|]);
    (destruct (todos w !! k) as [t|] eqn:Hk; cbn; [|done]);
    (destruct (Todo_cast_update _ _) as [t'|]; cbn; try done).
  all: split; [apply dom_insert_lookup_L; by rewrite Hk|].
  all: intros k' Hne; apply lookup_insert_ne; congruence.
Qed.

(** X12. POST /todos keeps every stored todo as it is and touches no key but
    the generated id; when that id is already in use the answer is 400 and
    the existing todo is not overwritten. *)
Theorem post_todos_footprint (env : Env) (w : World) (body : ReqBody) :
  todos w ⊆ todos (run (post_todos env body) w)
  /\ (forall k', k' <> new_id env ->
       todos (run (post_todos env body) w) !! k' = todos w !! k')
  /\ (is_Some (todos w !! new_id env) ->
      resp_status <$> reply (post_todos env body) w = Some 400
      /\ todos (run (post_todos env body) w) = todos w).
Proof.
  unfold post_todos, Todo_save. js_unfold.
  destruct (Todo_validate _) as [t|]; cbn; [|by intuition].
  destruct (fault w _); cbn; [by intuition|].
  destruct (todos w !! new_id env) as [t0|] eqn:Hk; cbn; [by intuition|].
  split; [by apply insert_subseteq|]. split.
  - intros k' Hne. by apply lookup_insert_ne.
  - intros [? [=]].
Qed.

(** X6. DELETE /todos/:id removes at most the document the id is cast to:
    every other todo stays as it is, and when the store operation does not
    fail no document is left under that key. *)
Theorem delete_todo_footprint (w : World) (id : string) :
  todos (run (delete_todo id) w) ⊆ todos w
  /\ (forall k', ObjectId_cast id <> Some k' ->
       todos (run (delete_todo id) w) !! k' = todos w !! k')
  /\ (forall k, ObjectId_cast id = Some k ->
       fault w (CallTodoFindByIdAndRemove id) = false ->
       todos (run (delete_todo id) w) !! k = None).
Proof.
  unfold delete_todo, Todo_findByIdAndRemove.
  destruct (ObjectId_isValid id) eqn:Hv; js_unfold.
  - destruct (ObjectId_cast id) as [k|]; cbn; [|by intuition].
    destruct (fault w _) eqn:Hf; cbn.
    { split; [done|]. split; [done|]. intros k0 _ [=]. }
    destruct (todos w !! k) as [t|] eqn:Hk; cbn.
    all: split; [apply delete_subseteq|].
    all: split; [intros k' Hne; apply lookup_delete_ne; congruence|].
    all: intros k0 [= <-] _; apply lookup_delete_eq.
  - apply invalid_cast in Hv as Hc. rewrite Hc.
    split; [done|]. split; [done|]. intros k [=].
Qed.

(** ** Reading back what was written *)

(** GET /todos/:id on a world whose collection has the document. *)
Lemma get_todo_hit (w : World) (id k : string) (t : Todo) :
  ObjectId_cast id = Some k ->
  todos w !! k = Some t ->
  fault w (CallTodoFindById id) = false ->
  reply (get_todo id) w
    = Some {| resp_status := 200; resp_headers := [];
              resp_body := Some (todo_body (Some (k, t))) |}.
Proof.
  intros Hk Ht Hfault.
  assert (Hv : ObjectId_isValid id = true) by (apply isValid_cast; eauto).
  unfold get_todo, Todo_findById. rewrite Hv. js_unfold.
  rewrite Hk, Hfault. cbn. rewrite Ht. cbn. done.
Qed.

(** X13. After POST /todos has answered 200, GET /todos/:id with the
    generated id (a canonical id, the store operation not failing) answers
    200 with the document that the POST returned. *)
Theorem post_then_get (env : Env) (w : World) (body : ReqBody) (r : Response) :
  ObjectId_cast (new_id env) = Some (new_id env) ->
  fault w (CallTodoFindById (new_id env)) = false ->
  reply (post_todos env body) w = Some r ->
  resp_status r = 200 ->
  exists doc,
    resp_body r = Some doc
    /\ reply (get_todo (new_id env)) (run (post_todos env body) w)
       = Some {| resp_status := 200; resp_headers := [];
                 resp_body := Some (JObj [("todo", doc)]) |}.
Proof.
  intros Hid Hfault.
  assert (Hcases :
    resp_status <$> reply (post_todos env body) w = Some 400
    \/ exists t,
         run (post_todos env body) w
         = set_sent {| resp_status := 200; resp_headers := [];
                       resp_body := Some (Todo_toJSON (new_id env, t)) |}
             (set_statusCode 200
                (set_todos (<[new_id env := t]> (todos w))
                   (log_command (CallTodoSave (new_id env) (body_get body "text"))
                      (log_call (CallTodoSave (new_id env) (body_get body "text"))
                         (fresh_res w)))))).
  { unfold post_todos, Todo_save. js_unfold.
    destruct (Todo_validate _) as [t|]; cbn; [|by left].
    destruct (fault w (CallTodoSave _ _)); cbn; [by left|].
    destruct (todos w !! new_id env); cbn; [by left|].
    right. by exists t. }
  destruct Hcases as [H400 | (t & Hrun)].
  - intros Hr Hs. rewrite Hr in H400. cbn in H400. congruence.
  - unfold reply at 1. rewrite Hrun. cbn. intros [= <-] _.
    eexists. split; [reflexivity|].
    apply (get_todo_hit _ (new_id env) (new_id env) t Hid).
    + cbn. apply lookup_insert_eq.
    + exact Hfault.
Qed.

(** X10. After PATCH /todos/:id has answered 200, GET /todos/:id with the
    same id (the store operation not failing) answers 200 with the same
    body; that body is the stored todo after the update, in which
    [completedAt] is set exactly when [completed] is true. *)
Theorem patch_then_get
    (env : Env) (w : World) (id : string) (body : ReqBody) (r : Response) :
  fault w (CallTodoFindById id) = false ->
  reply (patch_todo env id body) w = Some r ->
  resp_status r = 200 ->
  reply (get_todo id) (run (patch_todo env id body) w)
  = Some {| resp_status := 200; resp_headers := []; resp_body := resp_body r |}
  /\ exists k t',
       ObjectId_cast id = Some k
       /\ todos (run (patch_todo env id body) w) !! k = Some t'
       /\ resp_body r = Some (JObj [("todo", Todo_toJSON (k, t'))])
       /\ todo_consistent t'.
Proof.
  intros Hfault.
  assert (Hcases :
    (exists s, resp_status <$> reply (patch_todo env id body) w = Some s /\ s <> 200)
    \/ exists k t t',
         ObjectId_cast id = Some k
         /\ Todo_cast_update (patch_update env body) t = Some t'
         /\ run (patch_todo env id body) w
            = set_sent {| resp_status := 200; resp_headers := [];
                          resp_body := Some (todo_body (Some (k, t'))) |}
                (set_statusCode 200
                   (set_todos (<[k := t']> (todos w))
                      (log_command
                         (CallTodoFindByIdAndUpdate id (patch_update env body))
                         (log_call
                            (CallTodoFindByIdAndUpdate id (patch_update env body))
                            (fresh_res w)))))).
  { unfold patch_todo, Todo_findByIdAndUpdate.
    destruct (ObjectId_isValid id) eqn:Hv; js_unfold.
    - destruct (ObjectId_cast id) as [k|]; cbn; [|left; by exists 400].
      destruct (Todo_castable _); cbn; [|left; by exists 400].
      destruct (fault w (CallTodoFindByIdAndUpdate _ _)); cbn;
        [left; by exists 400|].
      destruct (todos w !! k) as [t|]; cbn; [|left; by exists 404].
      destruct (Todo_cast_update _ _) as [t'|] eqn:Hc; cbn;
        [|left; by exists 400].
      right. by exists k, t, t'.
    - rewrite (invalid_cast id Hv). left. by exists 400. }
  destruct Hcases as [(s & Hs & Hne) | (k & t & t' & Hk & Hc & Hrun)].
  - intros Hr Hst. rewrite Hr in Hs. cbn in Hs. congruence.
  - unfold reply at 1. rewrite Hrun. cbn. intros [= <-] _. cbn. split.
    + apply (get_todo_hit _ id k t' Hk); [|exact Hfault].
      cbn. apply lookup_insert_eq.
    + exists k, t'. split; [done|]. split; [apply lookup_insert_eq|].
      split; [done|]. by eapply patch_cast_consistent.
Qed.

(** ** The update document of PATCH /todos/:id *)

Lemma obj_get_key (o : object) (k : string) :
  is_Some (obj_get o k) -> In k (map fst o).
Proof.
  induction o as [|[k' v] o IH]; cbn [obj_get map fst In].
  - intros [? [=]].
  - destruct (String.eqb_spec k' k) as [->|Hne]; [by left|]. right. by apply IH.
Qed.

Lemma obj_set_keys (o : object) (k k' : string) (v : json) :
  In k (map fst (obj_set o k' v)) -> k = k' \/ In k (map fst o).
Proof.
  induction o as [|[k0 v0] o IH]; cbn [obj_set map fst In].
  - intros [<- | []]. by left.
  - destruct (String.eqb_spec k0 k') as [->|Hne]; cbn [map fst In].
    + intros [<- | H]; [right; by left | right; by right].
    + intros [<- | H]; [right; by left|].
      destruct (IH H) as [-> | H']; [by left | right; by right].
Qed.

Lemma pick_keys (b : ReqBody) (ks : list string) (k : string) :
  In k (map fst (pick b ks)) -> In k ks.
Proof.
  induction ks as [|k0 ks IH]; cbn [pick map fst In]; [done|].
  destruct (body_get b k0); cbn [map fst In]; [|by right; apply IH].
  intros [<- | H]; [by left | right; by apply IH].
Qed.

(** X8. The update document that PATCH /todos/:id builds has no key other
    than [text], [completed] and [completedAt]; [completed] and
    [completedAt] are always present, as true with the time of the server or
    as false with null, whatever the caller sent; [text] is the caller's. *)
Theorem patch_update_keys (env : Env) (body : ReqBody) :
  (forall k, is_Some (obj_get (patch_update env body) k) ->
     k = "text" \/ k = "completed" \/ k = "completedAt")
  /\ ((obj_get (patch_update env body) "completed" = Some (JBool true)
       /\ obj_get (patch_update env body) "completedAt" = Some (JNum (now env)))
      \/ (obj_get (patch_update env body) "completed" = Some (JBool false)
          /\ obj_get (patch_update env body) "completedAt" = Some JNull))
  /\ (obj_get (patch_update env body) "text" = body_get body "text").
Proof.
  split; [|split].
  - intros k Hk. apply obj_get_key in Hk. unfold patch_update in Hk.
    destruct (_ && _).
    + apply obj_set_keys in Hk as [-> | Hk]; [tauto|].
      apply pick_keys in Hk as [<- | [<- | []]]; tauto.
    + apply obj_set_keys in Hk as [-> | Hk]; [tauto|].
      apply obj_set_keys in Hk as [-> | Hk]; [tauto|].
      apply pick_keys in Hk as [<- | [<- | []]]; tauto.
  - destruct (completed_true_dec (body_get body "completed")) as [Hc|Hc].
    + left. by apply patch_update_true.
    + right. by apply patch_update_other.
  - apply patch_update_text.
Qed.

(** ** The requests of the 404 tests *)

Lemma lower_hex_is_word (c : ascii) : is_lower_hex c = true -> is_word c = true.
Proof.
  destruct c as [[] [] [] [] [] [] [] []]; intros H;
    (reflexivity || discriminate H).
Qed.

Lemma append_cons (a : ascii) (s t : string) :
  String a s +:+ t = String a (s +:+ t).
Proof. reflexivity. Qed.

Lemma drop_last_snoc (s : string) (c : ascii) :
  drop_last (s +:+ String c EmptyString) = s.
Proof.
  induction s as [|a s IH]; [reflexivity|].
  rewrite append_cons.
  destruct s as [|b s]; [reflexivity|].
  rewrite append_cons in *. cbn [drop_last] in *. by rewrite IH.
Qed.

Lemma snoc_length (s : string) (c : ascii) :
  s <> EmptyString ->
  String.length (drop_last s +:+ String c EmptyString) = String.length s.
Proof.
  induction s as [|a s IH]; [done|]. intros _.
  destruct s as [|b s]; [reflexivity|].
  cbn [drop_last] in *. rewrite append_cons. cbn [String.length].
  f_equal. by apply IH.
Qed.

Lemma snoc_forallb (p : ascii -> bool) (s : string) (c : ascii) :
  string_forallb p s = true -> p c = true ->
  string_forallb p (drop_last s +:+ String c EmptyString) = true.
Proof.
  intros Hs Hc.
  induction s as [|a s IH]; [change (p c && true = true); by rewrite Hc|].
  cbn [string_forallb] in Hs. apply andb_prop in Hs as [Ha Hs].
  destruct s as [|b s]; [change (p c && true = true); by rewrite Hc|].
  cbn [drop_last] in *. rewrite append_cons. cbn [string_forallb].
  rewrite Ha. cbn [andb]. by apply IH.
Qed.

(** X19. The id of the test "should return 404 if todo not found" of GET
    /todos/:id, built from a seeded id by replacing its first word character
    with 8, is a canonical id, so the request passes the id check; it is
    answered with 404 when no stored todo has it; it is the seeded id itself
    exactly when that begins with 8, and the request is then answered with
    200. *)
Theorem get_404_test_request (w : World) (hex : string) :
  is_canonical_id hex = true ->
  is_canonical_id (get_404_test_id hex) = true
  /\ (get_404_test_id hex = hex <-> exists s, hex = String "8" s)
  /\ (todos w !! get_404_test_id hex = None ->
      reply (get_todo (get_404_test_id hex)) w
        = Some {| resp_status := 404; resp_headers := []; resp_body := None |})
  /\ (forall t,
        get_404_test_id hex = hex ->
        todos w !! hex = Some t ->
        fault w (CallTodoFindById hex) = false ->
        resp_status <$> reply (get_todo (get_404_test_id hex)) w = Some 200).
Proof.
  intros Hcanon.
  assert (Hshape : exists a s, hex = String a s /\ is_lower_hex a = true
                               /\ get_404_test_id hex = String "8" s).
  { unfold is_canonical_id in Hcanon. apply andb_prop in Hcanon as [Hlen Hhex].
    destruct hex as [|a s]; [discriminate Hlen|].
    cbn in Hhex. apply andb_prop in Hhex as [Ha _].
    exists a, s. split; [done|]. split; [done|].
    unfold get_404_test_id. cbn [replace_first_word].
    by rewrite (lower_hex_is_word a Ha). }
  destruct Hshape as (a & s & -> & Ha & Hid).
  assert (Hc' : is_canonical_id (get_404_test_id (String a s)) = true).
  { rewrite Hid. unfold is_canonical_id in *.
    apply andb_prop in Hcanon as [Hlen Hhex]. cbn in Hhex.
    apply andb_prop in Hhex as [_ Hs].
    apply andb_true_intro. split; [exact Hlen|]. cbn. exact Hs. }
  split; [exact Hc'|]. split; [|split].
  - rewrite Hid. split.
    + intros [= <-]. by exists s.
    + intros (s' & [= -> ->]). reflexivity.
  - intros Hmiss.
    apply (get_todo_missing w _ _ (canonical_cast _ Hc') Hmiss).
  - intros t Heq Ht Hfault. rewrite Heq.
    rewrite (get_todo_hit w _ _ t (canonical_cast _ Hcanon) Ht Hfault).
    reflexivity.
Qed.

(** X20. The id of the test "should return 404 if not find" of DELETE
    /todos/:id, built from a seeded id by replacing its last character with
    0, is a canonical id; the request is answered with 404 and deletes
    nothing when no stored todo has it; it is the seeded id itself exactly
    when that ends with 0, and the request then deletes the seeded todo and
    is answered with 200. *)
Theorem delete_404_test_request (w : World) (hex : string) :
  is_canonical_id hex = true ->
  is_canonical_id (delete_404_test_id hex) = true
  /\ (delete_404_test_id hex = hex <-> exists s, hex = s +:+ "0")
  /\ (todos w !! delete_404_test_id hex = None ->
      reply (delete_todo (delete_404_test_id hex)) w
        = Some {| resp_status := 404; resp_headers := []; resp_body := None |}
      /\ todos (run (delete_todo (delete_404_test_id hex)) w) = todos w)
  /\ (forall t,
        delete_404_test_id hex = hex ->
        todos w !! hex = Some t ->
        fault w (CallTodoFindByIdAndRemove hex) = false ->
        resp_status <$> reply (delete_todo (delete_404_test_id hex)) w = Some 200
        /\ todos (run (delete_todo (delete_404_test_id hex)) w) !! hex = None).
Proof.
  intros Hcanon.
  assert (Hne : hex <> EmptyString).
  { intros ->. discriminate Hcanon. }
  assert (Hc' : is_canonical_id (delete_404_test_id hex) = true).
  { unfold is_canonical_id, delete_404_test_id in *.
    apply andb_prop in Hcanon as [Hlen Hhex].
    apply andb_true_intro. split.
    - by rewrite snoc_length.
    - by apply snoc_forallb. }
  split; [exact Hc'|]. split; [|split].
  - unfold delete_404_test_id. split.
    + intros H. exists (drop_last hex). by rewrite H.
    + intros (s & ->). by rewrite drop_last_snoc.
  - intros Hmiss.
    pose proof (canonical_cast _ Hc') as Hk.
    assert (Hv : ObjectId_isValid (delete_404_test_id hex) = true)
      by (apply isValid_cast; eauto).
    unfold delete_todo, Todo_findByIdAndRemove. rewrite Hv. js_unfold.
    rewrite Hk.
    destruct (fault w _); cbn; [done|].
    rewrite Hmiss. cbn. split; [done|]. by apply delete_id.
  - intros t Heq Ht Hfault. rewrite Heq.
    pose proof (canonical_cast _ Hcanon) as Hk.
    assert (Hv : ObjectId_isValid hex = true) by (apply isValid_cast; eauto).
    unfold delete_todo, Todo_findByIdAndRemove. rewrite Hv. js_unfold.
    rewrite Hk, Hfault. cbn. rewrite Ht. cbn.
    split; [done|]. apply lookup_delete_eq.
Qed.

(** ** What a 200 of a single-resource route carries *)

(** X3. A 200 of GET /todos/:id or DELETE /todos/:id always carries a todo
    that was stored under the key the id is cast to, never [null]; for
    DELETE that document is then removed. *)
Theorem todo_200_carries_document (w : World) (id : string) (r : Response) :
  (reply (get_todo id) w = Some r ->
   resp_status r = 200 ->
   exists k t,
     ObjectId_cast id = Some k
     /\ todos w !! k = Some t
     /\ resp_body r = Some (JObj [("todo", Todo_toJSON (k, t))]))
  /\ (reply (delete_todo id) w = Some r ->
      resp_status r = 200 ->
      exists k t,
        ObjectId_cast id = Some k
        /\ todos w !! k = Some t
        /\ todos (run (delete_todo id) w) = delete k (todos w)
        /\ resp_body r = Some (JObj [("todo", Todo_toJSON (k, t))])).
Proof.
  split.
  - unfold get_todo, Todo_findById.
    destruct (ObjectId_isValid id); js_unfold; [|by intros [= <-]].
    destruct (ObjectId_cast id) as [k|] eqn:Hk; cbn; [|by intros [= <-]].
    destruct (fault w (CallTodoFindById id)); cbn; [by intros [= <-]|].
    destruct (todos w !! k) as [t|] eqn:Ht; cbn; [|by intros [= <-]].
    intros [= <-] _. exists k, t. repeat split; done.
  - unfold delete_todo, Todo_findByIdAndRemove.
    destruct (ObjectId_isValid id); js_unfold; [|by intros [= <-]].
    destruct (ObjectId_cast id) as [k|] eqn:Hk; cbn; [|by intros [= <-]].
    destruct (fault w (CallTodoFindByIdAndRemove id)); cbn; [by intros [= <-]|].
    destruct (todos w !! k) as [t|] eqn:Ht; cbn; [|by intros [= <-]].
    intros [= <-] _. exists k, t. repeat split; done.
Qed.

(** ** The extra properties at concrete requests *)

Lemma get_todo_found_witness :
  reply (get_todo id1) demo_world
  = Some {| resp_status := 200; resp_headers := [];
            resp_body := Some (JObj [("todo", Todo_toJSON (id1, todo1))]) |}.
Proof.
  apply (get_todo_found demo_world id1 id1 todo1); reflexivity.
Defined.

Lemma get_todo_400_iff_witness :
  ObjectId_isValid "123" = false
  /\ calls (run (get_todo "123") demo_world) = calls demo_world.
Proof.
  split; [reflexivity|].
  apply (get_todo_400_iff demo_world "123"). reflexivity.
Defined.

Lemma delete_todo_400_iff_witness :
  ObjectId_isValid "123" = false
  /\ calls (run (delete_todo "123") demo_world) = calls demo_world.
Proof.
  split; [reflexivity|].
  apply (delete_todo_400_iff demo_world "123"). reflexivity.
Defined.

Lemma delete_todo_not_found_witness :
  todos demo_world !! id3 = None
  /\ reply (delete_todo id3) demo_world
     = Some {| resp_status := 404; resp_headers := []; resp_body := None |}.
Proof.
  split; [reflexivity|].
  apply (delete_todo_not_found demo_world id3 id3); reflexivity.
Defined.

Lemma patch_todo_not_found_witness :
  reply (patch_todo demo_env id3 (BodyObject [("completed", JBool true)])) demo_world
  = Some {| resp_status := 404; resp_headers := []; resp_body := None |}.
Proof.
  apply (patch_todo_not_found demo_env demo_world id3 id3
           (BodyObject [("completed", JBool true)])); try reflexivity.
  intros v Hv. discriminate Hv.
Defined.

Lemma get_todos_lists_all_witness :
  exists items,
    reply get_todos demo_world
    = Some {| resp_status := 200; resp_headers := [];
              resp_body := Some (JObj [("todos", JArr items)]) |}
    /\ length items = 2.
Proof.
  destruct (proj1 (get_todos_lists_all demo_world) eq_refl)
    as (items & Hr & Hlen & _).
  exists items. split; [exact Hr|]. rewrite Hlen. reflexivity.
Defined.

Lemma routes_write_their_collection_witness :
  users (@serve demo_primitives demo_env (DeleteTodo id1) demo_world)
  = users demo_world.
Proof.
  apply (@routes_write_their_collection demo_primitives demo_env
           (DeleteTodo id1) demo_world). reflexivity.
Defined.

Lemma failed_responses_are_bare_witness :
  resp_body {| resp_status := 404; resp_headers := []; resp_body := None |} = None.
Proof.
  apply (@failed_responses_are_bare demo_primitives demo_env (GetTodo id3)
           demo_world {| resp_status := 404; resp_headers := [];
                         resp_body := None |}).
  - reflexivity.
  - left. reflexivity.
Defined.

Lemma failed_requests_change_nothing_witness :
  todos (@serve demo_primitives demo_env (DeleteTodo id3) demo_world)
  = todos demo_world.
Proof.
  apply (@failed_requests_change_nothing demo_primitives demo_env
           (DeleteTodo id3) demo_world
           {| resp_status := 404; resp_headers := []; resp_body := None |}).
  - reflexivity.
  - discriminate.
  - intros body H. discriminate H.
Defined.

Lemma store_calls_bounded_witness :
  exists cs,
    calls (@serve demo_primitives demo_env (GetTodo id1) demo_world)
    = calls demo_world ++ cs
    /\ cs <> [].
Proof.
  destruct (@store_calls_bounded demo_primitives demo_env (GetTodo id1) demo_world)
    as (cs & Hcs & _ & Hne).
  exists cs. split; [exact Hcs|].
  apply (Hne {| resp_status := 200; resp_headers := [];
                resp_body := Some (JObj [("todo", Todo_toJSON (id1, todo1))]) |});
    reflexivity.
Defined.

Lemma demo_world_consistent :
  map_Forall (fun _ t => todo_consistent t) (todos demo_world).
Proof.
  apply map_Forall_insert_2.
  - split; [discriminate | intros H; by destruct H].
  - apply map_Forall_insert_2.
    + split; [discriminate | reflexivity].
    + apply map_Forall_empty.
Defined.

Lemma completedAt_invariant_witness :
  map_Forall (fun _ t => todo_consistent t)
    (todos (@serve demo_primitives demo_env
              (PatchTodo id2 (BodyObject [("completed", JStr "yes")])) demo_world)).
Proof.
  apply (@completedAt_invariant demo_primitives). exact demo_world_consistent.
Defined.

Lemma patch_todo_footprint_witness :
  todos (run (patch_todo demo_env id1 (BodyObject [("text", JStr "X")])) demo_world)
    !! id2
  = todos demo_world !! id2.
Proof.
  apply (patch_todo_footprint demo_env demo_world id1
           (BodyObject [("text", JStr "X")])).
  vm_compute. discriminate.
Defined.

Lemma post_todos_footprint_witness :
  todos (run (post_todos {| now := 0; new_id := id1; salt := "s1" |}
                (BodyObject [("text", JStr "again")])) demo_world)
  = todos demo_world.
Proof.
  apply (post_todos_footprint {| now := 0; new_id := id1; salt := "s1" |}
           demo_world (BodyObject [("text", JStr "again")])).
  exists todo1. reflexivity.
Defined.

Lemma delete_todo_footprint_witness :
  todos (run (delete_todo id1) demo_world) !! id2 = todos demo_world !! id2
  /\ todos (run (delete_todo id1) demo_world) !! id1 = None.
Proof.
  split.
  - apply (delete_todo_footprint demo_world id1). vm_compute. discriminate.
  - apply (delete_todo_footprint demo_world id1); reflexivity.
Defined.

Lemma post_then_get_witness :
  exists doc,
    reply (get_todo id3)
      (run (post_todos demo_env (BodyObject [("text", JStr "walk")])) demo_world)
    = Some {| resp_status := 200; resp_headers := [];
              resp_body := Some (JObj [("todo", doc)]) |}.
Proof.
  destruct (post_then_get demo_env demo_world
              (BodyObject [("text", JStr "walk")])
              {| resp_status := 200; resp_headers := [];
                 resp_body :=
                   Some (Todo_toJSON (id3, {| text := "walk"; completed := false;
                                              completedAt := None |})) |})
    as (doc & _ & Hget); try reflexivity.
  exists doc. exact Hget.
Defined.

Lemma patch_then_get_witness :
  reply (get_todo id1)
    (run (patch_todo demo_env id1 (BodyObject [("completed", JBool true)]))
         demo_world)
  = Some {| resp_status := 200; resp_headers := [];
            resp_body :=
              Some (JObj [("todo",
                           Todo_toJSON (id1, {| text := "First test todo";
                                                completed := true;
                                                completedAt := Some (now demo_env) |}))])
         |}.
Proof.
  apply (patch_then_get demo_env demo_world id1
           (BodyObject [("completed", JBool true)])
           {| resp_status := 200; resp_headers := [];
              resp_body :=
                Some (JObj [("todo",
                             Todo_toJSON (id1, {| text := "First test todo";
                                                  completed := true;
                                                  completedAt := Some (now demo_env) |}))])
           |}); reflexivity.
Defined.

Lemma patch_update_keys_witness :
  "completedAt" = "text" \/ "completedAt" = "completed"
  \/ "completedAt" = "completedAt".
Proof.
  apply (patch_update_keys demo_env (BodyObject [("completedAt", JNum 5)])).
  eexists. reflexivity.
Defined.

Lemma get_404_test_request_witness :
  is_canonical_id (get_404_test_id id1) = true
  /\ reply (get_todo (get_404_test_id id1)) demo_world
     = Some {| resp_status := 404; resp_headers := []; resp_body := None |}.
Proof.
  destruct (get_404_test_request demo_world id1) as (Hc & _ & Hmiss & _);
    [reflexivity|].
  split; [exact Hc|]. apply Hmiss. vm_compute. reflexivity.
Defined.

Lemma delete_404_test_request_witness :
  is_canonical_id (delete_404_test_id id1) = true
  /\ reply (delete_todo (delete_404_test_id id1)) demo_world
     = Some {| resp_status := 404; resp_headers := []; resp_body := None |}.
Proof.
  destruct (delete_404_test_request demo_world id1) as (Hc & _ & Hmiss & _);
    [reflexivity|].
  split; [exact Hc|]. apply Hmiss. vm_compute. reflexivity.
Defined.

Lemma todo_200_carries_document_witness :
  exists k t,
    ObjectId_cast "5A1F00000000000000000001" = Some k
    /\ todos demo_world !! k = Some t.
Proof.
  destruct (proj1 (todo_200_carries_document demo_world
                     "5A1F00000000000000000001"
                     {| resp_status := 200; resp_headers := [];
                        resp_body := Some (JObj [("todo", Todo_toJSON (id1, todo1))]) |}))
    as (k & t & Hk & Ht & _); try reflexivity.
  by exists k, t.
Defined.
